(** * Melanoma TIL analysis scripts: annotation synthesis and tumor-region
    filtering

  Shallow embedding of

  - [scripts_melanoma_analysis/01_tsv_to_geojson.py] (Stage 1), and
  - [scripts_melanoma_analysis/02_filter_nuclei_tumor_area.py] (Stage 2),

  followed by the properties the design document states about them.

  Python floats are IEEE-754 binary64 numbers; they are modelled with the
  executable specification [SpecFloat] ([prec = 53], [emax = 1024]).
  Python exceptions are values of [exn]; a computation that may raise
  returns a [result]. The file system is a finite map from paths to file
  contents. Library calls whose outcome depends on data outside the two
  scripts (pandas / geopandas / cellseg_gsontools readers, the geometric
  predicates, [json.loads], [uuid.uuid4]) are fields of a record of
  externals. *)

From Stdlib Require Import ZArith QArith String Ascii List Lia Bool.
From Stdlib Require Import Floats.SpecFloat.
From stdpp Require Import base option list gmap strings pretty.

Local Open Scope Z_scope.
Local Open Scope string_scope.

(** ** Python values, exceptions *)

Module Py.

(** IEEE-754 binary64. *)
Definition float := spec_float.

Definition prec : Z := 53.
Definition emax : Z := 1024.

Definition fadd : float -> float -> float := SFadd prec emax.
Definition fsub : float -> float -> float := SFsub prec emax.
Definition fmul : float -> float -> float := SFmul prec emax.
Definition fdiv : float -> float -> float := SFdiv prec emax.

(** Conversion of an integer to the nearest binary64 ([float(n)]). *)
Definition float_of_Z (n : Z) : float := binary_normalize prec emax n 0 false.

Definition is_nan (f : float) : bool :=
  match f with S754_nan => true | _ => false end.

Definition is_finite (f : float) : bool :=
  match f with S754_zero _ | S754_finite _ _ _ => true | _ => false end.

(** The exact rational value of a finite binary64 number. *)
Definition float_to_Q (f : float) : option Q :=
  match f with
  | S754_zero _ => Some 0%Q
  | S754_finite s m e =>
      let v := match e with
               | Z0 => (Zpos m # 1)%Q
               | Zpos p => ((Zpos m * 2 ^ Zpos p) # 1)%Q
               | Zneg p => (Zpos m # (2 ^ p))%Q
               end in
      Some (if s then Qopp v else v)
  | _ => None
  end.

(** The values that travel through the two scripts: what [json.loads]
    returns, and what a pandas cell may hold. *)
#[warnings="-register-all"]
Inductive pyval :=
| VNone
| VBool (b : bool)
| VInt (n : Z)
| VFloat (f : float)
| VStr (s : string)
| VList (l : list pyval)
| VDict (d : list (string * pyval)).

Inductive exn :=
| KeyError (key : string)
| AttributeError
| TypeError
| JSONDecodeError
| OtherError (what : string).

Inductive result (A : Type) :=
| Ok (a : A)
| Raise (e : exn).
Arguments Ok {A} a.
Arguments Raise {A} e.

Definition bind {A B} (m : result A) (k : A -> result B) : result B :=
  match m with
  | Ok a => k a
  | Raise e => Raise e
  end.

(** [for x in l: f(x)] collecting the results; stops at the first
    exception. *)
Fixpoint mapM {A B} (f : A -> result B) (l : list A) : result (list B) :=
  match l with
  | [] => Ok []
  | x :: l' =>
      bind (f x) (fun y => bind (mapM f l') (fun ys => Ok (y :: ys)))
  end.

(** [try: m except KeyError: h]; every other exception goes through. *)
Definition except_KeyError {A} (m : result A) (h : string -> result A) : result A :=
  match m with
  | Raise (KeyError k) => h k
  | _ => m
  end.

(** Truth value of a Python object ([if x]). *)
Definition truthy (v : pyval) : bool :=
  match v with
  | VNone => false
  | VBool b => b
  | VInt n => negb (n =? 0)%Z
  | VFloat f => match f with S754_zero _ => false | _ => true end
  | VStr s => negb (String.eqb s "")
  | VList l => match l with [] => false | _ => true end
  | VDict d => match d with [] => false | _ => true end
  end.

(** [a == b] on scalars. A bool is the integer 0 or 1; an integer and a
    float are equal when the float is finite and has exactly the value of
    the integer; two floats are compared as IEEE-754 does (NaN is equal to
    nothing, the two zeros are equal). Lists and dicts are never compared,
    [unique()] rejects them first. *)
Definition as_number (v : pyval) : option (Z + float) :=
  match v with
  | VBool b => Some (inl (if b then 1 else 0))
  | VInt n => Some (inl n)
  | VFloat f => Some (inr f)
  | _ => None
  end.

Definition int_float_eqb (n : Z) (f : float) : bool :=
  match float_to_Q f with
  | Some q => Qeq_bool q (inject_Z n)
  | None => false
  end.

Definition pyval_eqb (a b : pyval) : bool :=
  match as_number a, as_number b with
  | Some (inl x), Some (inl y) => (x =? y)%Z
  | Some (inl x), Some (inr f) => int_float_eqb x f
  | Some (inr f), Some (inl y) => int_float_eqb y f
  | Some (inr f), Some (inr g) => SFeqb f g
  | None, None =>
      match a, b with
      | VNone, VNone => true
      | VStr x, VStr y => String.eqb x y
      | _, _ => false
      end
  | _, _ => false
  end.

(** [dict.get(key, default)] on the association-list reading of a dict. *)
Fixpoint dict_get {V} (d : list (string * V)) (key : string) (default : V) : V :=
  match d with
  | [] => default
  | (k, v) :: d' => if String.eqb k key then v else dict_get d' key default
  end.

End Py.

Export Py.

Declare Scope py_scope.
Notation "'let*' x ':=' m 'in' k" := (bind m (fun x => k))
  (at level 10, x pattern, m at level 100, k at level 200) : py_scope.
Local Open Scope py_scope.

(** ** String helpers: [str.endswith], [str.lower], [str.replace],
     [os.path.join] *)

Module Str.

Fixpoint rev_chars (s : string) (acc : list ascii) : list ascii :=
  match s with
  | EmptyString => acc
  | String c s' => rev_chars s' (c :: acc)
  end.

Fixpoint prefix_chars (p l : list ascii) : bool :=
  match p, l with
  | [], _ => true
  | _ :: _, [] => false
  | a :: p', b :: l' => Ascii.eqb a b && prefix_chars p' l'
  end.

(** [s.endswith(suffix)] *)
Definition endswith (s suffix : string) : bool :=
  prefix_chars (rev_chars suffix []) (rev_chars s []).

(** [s.startswith(p)] *)
Fixpoint startswith (s p : string) : bool :=
  match p, s with
  | EmptyString, _ => true
  | String _ _, EmptyString => false
  | String a p', String b s' => Ascii.eqb a b && startswith s' p'
  end.

Definition lower_ascii (c : ascii) : ascii :=
  let n := nat_of_ascii c in
  if (65 <=? n)%nat && (n <=? 90)%nat then ascii_of_nat (n + 32) else c.

(** [s.lower()], on the ASCII letters. *)
Fixpoint lower (s : string) : string :=
  match s with
  | EmptyString => EmptyString
  | String c s' => String (lower_ascii c) (lower s')
  end.

(** [s.replace(old, new)] for a non-empty [old]: left-to-right,
    non-overlapping. [skip] counts the characters of a match still to be
    dropped. *)
Fixpoint replace_go (old new : string) (skip : nat) (s : string) : string :=
  match s with
  | EmptyString => EmptyString
  | String c s' =>
      match skip with
      | S k => replace_go old new k s'
      | O =>
          if startswith s old
          then new ++ replace_go old new (String.length old - 1) s'
          else String c (replace_go old new 0 s')
      end
  end.

Definition replace (s old new : string) : string := replace_go old new 0 s.

(** The last character of a string, if it has one. *)
Definition last_char (s : string) : option ascii :=
  last (list_ascii_of_string s).

End Str.

(** ** Stage 1: [01_tsv_to_geojson.py] *)

Module Stage1.

(** [COLORS]: the colors for each cell type. *)
Definition COLORS : list (string * list Z) :=
  [ ("nuclei_lymphocyte", [0; 255; 255]);
    ("nuclei_tumor",      [255; 0; 0]);
    ("nuclei_other",      [255; 255; 0]) ].

(** [COLORS.get(key, default)] for a key read from a pandas cell: only a
    string can be equal to one of the keys. *)
Definition colors_get (key : pyval) (default : list Z) : list Z :=
  match key with
  | VStr s => dict_get COLORS s default
  | _ => default
  end.

(** [create_square_polygon(x, y, size=15)]; [size / 2] is the true division
    of two Python integers. *)
Definition create_square_polygon (x y : float) (size : Z) : list (list float) :=
  let half_size := fdiv (float_of_Z size) (float_of_Z 2) in
  [ [fsub x half_size; fsub y half_size];
    [fadd x half_size; fsub y half_size];
    [fadd x half_size; fadd y half_size];
    [fsub x half_size; fadd y half_size];
    [fsub x half_size; fsub y half_size] ].

Definition default_size : Z := 15.

(** One row of a TSV file as [data.iterrows()] yields it. *)
Record tsv_row := {
  row_x : float;
  row_y : float;
  row_name : pyval
}.

Record classification := {
  cls_name : pyval;
  cls_color : list Z
}.

Record geometry := {
  geom_type : string;
  coordinates : list (list (list float))
}.

Record properties := {
  objectType : string;
  prop_classification : classification
}.

Record feature := {
  feat_type : string;
  feat_id : string;
  feat_geometry : geometry;
  feat_properties : properties
}.

Record feature_collection := {
  fc_type : string;
  features : list feature
}.

(** What the script takes from its environment. [read_csv] stands for
    [pd.read_csv(path, sep='\t')] followed by the accesses [row['x']],
    [row['y']], [row['name']]: an unreadable file, a missing column or a
    non-numeric coordinate raises, and nothing in the script catches it.
    [uuid4 n] is the string of the [n]-th identifier drawn. *)
Record externals := {
  listdir : string -> list string;
  isdir : string -> bool;
  read_csv : string -> result (list tsv_row);
  uuid4 : nat -> string
}.

(** The state the script acts on: the files it may have written, and the
    number of identifiers drawn so far. *)
Record state := {
  files : gmap string feature_collection;
  drawn : nat
}.

Definition path_exists (p : string) (st : state) : bool :=
  bool_decide (is_Some (files st !! p)).

Definition write_file (p : string) (doc : feature_collection) (st : state) : state :=
  {| files := <[p := doc]> (files st); drawn := drawn st |}.

(** [os.path.join(a, b)] *)
Definition path_join (a b : string) : string :=
  if Str.startswith b "/" then b
  else if String.eqb a "" || Str.endswith a "/" then a ++ b
  else a ++ "/" ++ b.

(** [os.path.dirname(p)]: [p] up to its last slash, trailing slashes of the
    head removed unless the head is made of slashes only. *)
Fixpoint drop_slashes (l : list ascii) : list ascii :=
  match l with
  | "/"%char :: l' => drop_slashes l'
  | _ => l
  end.

Fixpoint after_last_slash (l : list ascii) : list ascii :=
  match l with
  | [] => []
  | "/"%char :: _ => l
  | _ :: l' => after_last_slash l'
  end.

Definition dirname (p : string) : string :=
  let head := after_last_slash (Str.rev_chars p []) in
  let stripped := drop_slashes head in
  string_of_list_ascii (rev (match stripped with [] => head | _ => stripped end)).

(** The body of the [for _, row in data.iterrows()] loop: one feature per
    row, with a fresh identifier. *)
Definition make_feature (id : string) (row : tsv_row) : feature :=
  let x := row_x row in
  let y := row_y row in
  let polygon := create_square_polygon x y default_size in
  {| feat_type := "Feature";
     feat_id := id;
     feat_geometry := {| geom_type := "Polygon"; coordinates := [polygon] |};
     feat_properties :=
       {| objectType := "annotation";
          prop_classification :=
            {| cls_name := row_name row;
               cls_color := colors_get (row_name row) [0; 0; 0] |} |} |}.

Fixpoint rows_loop (E : externals) (data : list tsv_row) (n : nat)
    (acc : list feature) : list feature * nat :=
  match data with
  | [] => (acc, n)
  | row :: data' =>
      rows_loop E data' (S n) (acc ++ [make_feature (uuid4 E n) row])
  end.

(** The [for file_name in tsv_files] loop. *)
Fixpoint files_loop (E : externals) (subfolder_path : string)
    (tsv_files : list string) (n : nat) (acc : list feature)
    : result (list feature) * nat :=
  match tsv_files with
  | [] => (Ok acc, n)
  | file_name :: rest =>
      let file_path := path_join subfolder_path file_name in
      match read_csv E file_path with
      | Raise e => (Raise e, n)
      | Ok data =>
          let '(acc', n') := rows_loop E data n acc in
          files_loop E subfolder_path rest n' acc'
      end
  end.

(** [process_subfolder(subfolder_path, output_file)]. The value returned
    tells whether the function returned normally. *)
Definition process_subfolder (E : externals) (subfolder_path output_file : string)
    (st : state) : result unit * state :=
  let tsv_files :=
    List.filter (fun f => Str.endswith f ".tsv") (listdir E subfolder_path) in
  match tsv_files with
  | [] => (Ok tt, st)
  | _ =>
      let '(r, n) := files_loop E subfolder_path tsv_files (drawn st) [] in
      let st1 := {| files := files st; drawn := n |} in
      match r with
      | Raise e => (Raise e, st1)
      | Ok feats =>
          let geojson := {| fc_type := "FeatureCollection"; features := feats |} in
          let output_file_path := path_join (dirname subfolder_path) output_file in
          (Ok tt, write_file output_file_path geojson st1)
      end
  end.

(** [sorted(subfolders, reverse=True)] *)
Fixpoint insert_desc (s : string) (l : list string) : list string :=
  match l with
  | [] => [s]
  | t :: l' => if String.ltb s t then t :: insert_desc s l' else s :: l
  end.

Definition sorted_reverse (l : list string) : list string :=
  fold_right insert_desc [] l.

(** The [for subfolder_name in subfolders] loop of [main]. *)
Fixpoint main_loop (E : externals) (input_dir : string) (subfolders : list string)
    (st : state) : result unit * state :=
  match subfolders with
  | [] => (Ok tt, st)
  | subfolder_name :: rest =>
      let subfolder_path := path_join input_dir subfolder_name in
      let output_file := subfolder_name ++ ".geojson" in
      let output_file_path := path_join (dirname subfolder_path) output_file in
      if path_exists output_file_path st then main_loop E input_dir rest st
      else
        match process_subfolder E subfolder_path output_file st with
        | (Raise e, st') => (Raise e, st')
        | (Ok _, st') => main_loop E input_dir rest st'
        end
  end.

(** [main(input_dir)] *)
Definition main (E : externals) (input_dir : string) (st : state)
    : result unit * state :=
  let subfolders :=
    List.filter (fun d => isdir E (path_join input_dir d)) (listdir E input_dir) in
  let subfolders := sorted_reverse subfolders in
  main_loop E input_dir subfolders st.

End Stage1.

(** ** The pandas / geopandas operations the second script uses *)

Module Frames.

(** A row of a [GeoDataFrame]: its index label, its geometry, and the
    other cells by column name. *)
Record row (G : Type) := {
  r_index : Z;
  r_geometry : G;
  r_attrs : gmap string pyval
}.
Arguments r_index {G} _.
Arguments r_geometry {G} _.
Arguments r_attrs {G} _.

(** [columns] lists the columns other than the geometry. *)
Record GeoDataFrame (G : Type) := {
  columns : list string;
  rows : list (row G)
}.
Arguments columns {G} _.
Arguments rows {G} _.

Section Frame.
Context {G : Type} `{EqDecision G}.

(** A cell that was never set reads as a missing value. *)
Definition cell (r : row G) (c : string) : pyval :=
  default VNone (r_attrs r !! c).

Definition set_cell (c : string) (v : pyval) (r : row G) : row G :=
  {| r_index := r_index r; r_geometry := r_geometry r;
     r_attrs := <[c := v]> (r_attrs r) |}.

(** [df.empty] (the geometry column is always there, so the frame is empty
    when it has no row). *)
Definition empty (df : GeoDataFrame G) : bool :=
  match rows df with [] => true | _ => false end.

(** [df[c]] *)
Definition get_column (df : GeoDataFrame G) (c : string) : result (list pyval) :=
  if decide (c ∈ columns df)
  then Ok (map (fun r => cell r c) (rows df))
  else Raise (KeyError c).

(** [df[c] = values], the values given in row order. *)
Definition set_column (df : GeoDataFrame G) (c : string) (values : list pyval)
    : GeoDataFrame G :=
  {| columns := if decide (c ∈ columns df) then columns df else columns df ++ [c];
     rows := zip_with (set_cell c) values (rows df) |}.

(** [df[mask]] *)
Definition filter_rows (mask : row G -> bool) (df : GeoDataFrame G) : GeoDataFrame G :=
  {| columns := columns df; rows := List.filter mask (rows df) |}.

(** [series.notnull()]: neither [None] nor NaN. *)
Definition notnull (v : pyval) : bool :=
  match v with
  | VNone => false
  | VFloat S754_nan => false
  | _ => true
  end.

(** [series == scalar], element by element: a missing value is equal to
    nothing. *)
Definition pd_eq (v scalar : pyval) : bool :=
  notnull v && pyval_eqb v scalar.

(** [series.unique()]: the distinct values in order of first appearance;
    the values are hashed, and a list or a dict cannot be. *)
Definition hashable (v : pyval) : bool :=
  match v with
  | VList _ | VDict _ => false
  | _ => true
  end.

Definition same_key (a b : pyval) : bool :=
  pyval_eqb a b
  || match a, b with VFloat S754_nan, VFloat S754_nan => true | _, _ => false end.

Fixpoint unique_go (seen : list pyval) (l : list pyval) : list pyval :=
  match l with
  | [] => []
  | v :: l' =>
      if existsb (same_key v) seen then unique_go seen l'
      else v :: unique_go (v :: seen) l'
  end.

Definition unique (l : list pyval) : result (list pyval) :=
  if forallb hashable l then Ok (unique_go [] l) else Raise TypeError.

(** [df.drop(columns=cs)] *)
Definition drop_columns (df : GeoDataFrame G) (cs : list string) : result (GeoDataFrame G) :=
  match List.filter (fun c => negb (bool_decide (c ∈ columns df))) cs with
  | missing :: _ => Raise (KeyError missing)
  | [] =>
      Ok {| columns := List.filter (fun c => negb (bool_decide (c ∈ cs))) (columns df);
            rows := map (fun r =>
                      {| r_index := r_index r; r_geometry := r_geometry r;
                         r_attrs := foldr delete (r_attrs r) cs |}) (rows df) |}
  end.

(** [df.columns = [f(col) for col in df.columns]] *)
Definition rename_columns (f : string -> string) (df : GeoDataFrame G) : GeoDataFrame G :=
  {| columns := map f (columns df);
     rows := map (fun r =>
               {| r_index := r_index r; r_geometry := r_geometry r;
                  r_attrs := list_to_map (map (fun c => (f c, cell r c)) (columns df)) |})
             (rows df) |}.

(** The row [gpd.sjoin(left, right, how='inner')] makes of a matching pair:
    the index and the geometry of the left row; the columns the two frames
    share get the suffixes [_left] and [_right]; the index of the right row
    is kept in [index_right]. *)
Definition suffixed (other : list string) (sfx c : string) : string :=
  if decide (c ∈ other) then c ++ sfx else c.

Definition sjoin_columns (left right : GeoDataFrame G) : list string :=
  map (suffixed (columns right) "_left") (columns left)
  ++ ["index_right"]
  ++ map (suffixed (columns left) "_right") (columns right).

Definition sjoin_row (left right : GeoDataFrame G) (l r : row G) : row G :=
  {| r_index := r_index l;
     r_geometry := r_geometry l;
     r_attrs :=
       list_to_map
         (map (fun c => (suffixed (columns right) "_left" c, cell l c)) (columns left)
          ++ [("index_right", VInt (r_index r))]
          ++ map (fun c => (suffixed (columns left) "_right" c, cell r c)) (columns right)) |}.

(** The rows of an inner join on a predicate: one per pair that satisfies
    it, in the order of the left rows. *)
Definition sjoin_rows (predicate : G -> G -> bool) (left right : GeoDataFrame G)
    : list (row G) :=
  flat_map (fun l =>
      map (sjoin_row left right l)
          (List.filter (fun r => predicate (r_geometry l) (r_geometry r)) (rows right)))
    (rows left).

(** [df.drop_duplicates(subset=['geometry'])]: the first row of each
    geometry is kept. *)
Fixpoint drop_duplicates_go (seen : list G) (l : list (row G)) : list (row G) :=
  match l with
  | [] => []
  | r :: l' =>
      if decide (r_geometry r ∈ seen) then drop_duplicates_go seen l'
      else r :: drop_duplicates_go (r_geometry r :: seen) l'
  end.

Definition drop_duplicates_geometry (df : GeoDataFrame G) : GeoDataFrame G :=
  {| columns := columns df; rows := drop_duplicates_go [] (rows df) |}.

End Frame.

End Frames.

Export Frames.

(** ** Stage 2: [02_filter_nuclei_tumor_area.py] *)

Module Stage2.

(** What the script takes from its environment, for geometries of type [G]:
    the shapely predicates behind [predicate='within'] and
    [predicate="intersects"]; [json.loads] ([None] for a
    [JSONDecodeError]); [repr] of a float (for the f-strings);
    [os.listdir], [os.path.getsize] and [read_gdf] on the input folders;
    whether a spatial join or the GeoJSON writer raises on given frames;
    and [grid_overlay] with [patch_size = stride]. *)
Record externals (G : Type) := {
  within : G -> G -> bool;
  intersects : G -> G -> bool;
  json_loads : string -> option pyval;
  float_repr : float -> string;
  listdir : string -> list string;
  getsize : string -> Z;
  read_gdf : string -> result (GeoDataFrame G);
  sjoin_fault : GeoDataFrame G -> GeoDataFrame G -> option exn;
  to_file_fault : GeoDataFrame G -> option exn;
  grid_overlay : GeoDataFrame G -> float -> result (option (GeoDataFrame G))
}.
Arguments within {G} _ _ _.
Arguments intersects {G} _ _ _.
Arguments json_loads {G} _ _.
Arguments float_repr {G} _ _.
Arguments listdir {G} _ _.
Arguments getsize {G} _ _.
Arguments read_gdf {G} _ _.
Arguments sjoin_fault {G} _ _ _.
Arguments to_file_fault {G} _ _.
Arguments grid_overlay {G} _ _ _.

(** The command-line arguments. *)
Record arguments := {
  nuclei_geojson_folder : string;
  tissue_geojson_folder : string;
  results_path : string;
  geojson_output_path : string;
  pixel_grid_size : float
}.

(** [880.6693086745927], the default of [--pixel_grid_size]. *)
Definition default_pixel_grid_size : float :=
  S754_finite false 7746449160905328 (-43).

(** What a file written by the script holds. *)
Inductive content (G : Type) :=
| LockFile
| GeoJSONFile (gdf : GeoDataFrame G)
| CSVFile (grid : GeoDataFrame G).
Arguments LockFile {G}.
Arguments GeoJSONFile {G} gdf.
Arguments CSVFile {G} grid.

(** The calls that reach the file system or read an input file, in the
    order they are made. *)
Inductive event :=
| EvExists (p : string)
| EvCreate (p : string)
| EvGetSize (p : string)
| EvReadGdf (p : string)
| EvToFile (p : string)
| EvToCsv (p : string)
| EvRemove (p : string).

(** The files under [results_path] and [geojson_output_path], and the trace
    of calls. *)
Record state (G : Type) := {
  files : gmap string (content G);
  trace : list event
}.
Arguments files {G} _.
Arguments trace {G} _.

(** Why the loop moved on to the next file: the message printed before
    [continue]. *)
Inductive skip_reason :=
| AlreadyExists
| Locked
| TissueTooSmall
| LoadError (e : exn)
| MissingKey (key : string)
| JoinError (e : exn)
| GridError (e : exn).

(** How one iteration of the loop ends: by a [continue], at the end of the
    body (having written the table or not), or by an exception nothing
    catches. *)
Inductive outcome :=
| Skipped (why : skip_reason)
| Completed (table_written : bool)
| Uncaught (e : exn).

(** [Path(dir) / name] *)
Definition path_div (dir name : string) : string := dir ++ "/" ++ name.

(** [Path(name).stem] for a name without slash: the name up to its last
    dot, unless that dot is the first or the last character. *)
Fixpoint rfind_dot (s : string) (i : nat) (found : option nat) : option nat :=
  match s with
  | EmptyString => found
  | String c s' =>
      rfind_dot s' (S i) (if Ascii.eqb c "."%char then Some i else found)
  end.

Definition stem (name : string) : string :=
  match rfind_dot name 0 None with
  | Some i =>
      if (0 <? i)%nat && (i <? String.length name - 1)%nat
      then String.substring 0 i name
      else name
  | None => name
  end.

Section Script.
Context {G : Type} `{EqDecision G} (E : externals G).

Definition emit (ev : event) (st : state G) : state G :=
  {| files := files st; trace := trace st ++ [ev] |}.

(** [os.path.exists(p)] *)
Definition path_exists (p : string) (st : state G) : bool :=
  bool_decide (is_Some (files st !! p)).

Definition write_file (p : string) (c : content G) (st : state G) : state G :=
  {| files := <[p := c]> (files st); trace := trace st |}.

(** [os.remove(p)] *)
Definition remove_file (p : string) (st : state G) : state G :=
  {| files := delete p (files st); trace := trace st |}.

(** [str(v)], as an f-string formats a value. *)
Definition py_str (v : pyval) : string :=
  match v with
  | VNone => "None"
  | VBool true => "True"
  | VBool false => "False"
  | VInt n => pretty n
  | VFloat f => float_repr E f
  | VStr s => s
  | VList _ | VDict _ => "<unhashable>"
  end.

(** [get_total_cell_cnt_per_class(gdf, class_name)] *)
Definition get_total_cell_cnt_per_class (gdf : option (GeoDataFrame G))
    (class_name : pyval) : result Z :=
  match gdf with
  | None => Ok 0
  | Some gdf =>
      let* col := get_column gdf "class_name" in
      Ok (Z.of_nat (length (List.filter (fun v => pd_eq v class_name) col)))
  end.

(** [cellseg_gsontools.grid.grid_classify] with [predicate="intersects"]:
    [metric_func] is applied to the objects that intersect each grid cell
    ([None] when there is none) and its values make the new column. The
    library reads [grid.loc], which a [None] grid does not have. *)
Definition get_objs (cell_geometry : G) (objs : GeoDataFrame G)
    : option (GeoDataFrame G) :=
  let sub := filter_rows (fun r => intersects E (r_geometry r) cell_geometry) objs in
  if empty sub then None else Some sub.

Definition grid_classify (grid : option (GeoDataFrame G)) (objs : GeoDataFrame G)
    (metric_func : option (GeoDataFrame G) -> result Z) (new_col_names : string)
    : result (option (GeoDataFrame G)) :=
  match grid with
  | None => Raise AttributeError
  | Some g =>
      let* values := mapM (fun r => metric_func (get_objs (r_geometry r) objs)) (rows g) in
      Ok (Some (set_column g new_col_names (map VInt values)))
  end.

Definition total_cnt_col (class_name : pyval) : string :=
  "total_cnt_" ++ py_str class_name.

Definition percentage_col (class_name : pyval) : string :=
  py_str class_name ++ "_percentage".

(** The first loop of [add_percentage_columns]. *)
Fixpoint classify_loop (nuclei : GeoDataFrame G) (unique_class_names : list pyval)
    (grid : option (GeoDataFrame G)) : result (option (GeoDataFrame G)) :=
  match unique_class_names with
  | [] => Ok grid
  | class_name :: rest =>
      let* grid :=
        grid_classify grid nuclei
          (fun gdf => get_total_cell_cnt_per_class gdf class_name)
          (total_cnt_col class_name) in
      classify_loop nuclei rest grid
  end.

(** Arithmetic on the cells of numeric columns. [sum(axis=1)] adds the
    integer counts; a true division of two columns is done in binary64,
    where [0 / 0] is NaN and nothing is raised. *)
Definition as_int (v : pyval) : result Z :=
  match v with
  | VInt n => Ok n
  | _ => Raise TypeError
  end.

Definition as_float (v : pyval) : result float :=
  match v with
  | VInt n => Ok (float_of_Z n)
  | VFloat f => Ok f
  | _ => Raise TypeError
  end.

Definition sum_axis1 (grid : GeoDataFrame G) (cols : list string)
    : result (list pyval) :=
  let* _ := mapM (get_column grid) cols in
  mapM (fun r =>
      let* ns := mapM (fun c => as_int (cell r c)) cols in
      Ok (VInt (foldr Z.add 0 ns)))
    (rows grid).

Definition pd_truediv (a b : pyval) : result float :=
  let* x := as_float a in
  let* y := as_float b in
  Ok (fdiv x y).

(** [fillna(0)] on a float cell. *)
Definition fillna0 (f : float) : float :=
  if is_nan f then S754_zero false else f.

(** The second loop: one percentage column per class. The column is
    assigned, then [grid[percentage_col].fillna(0, inplace=True)] replaces
    its NaN in place (pandas without copy-on-write, where [grid[col]] is
    the column of the frame). *)
Fixpoint percentage_loop (unique_class_names : list pyval) (grid : GeoDataFrame G)
    : result (GeoDataFrame G) :=
  match unique_class_names with
  | [] => Ok grid
  | class_name :: rest =>
      let percentage_col := percentage_col class_name in
      let* cnt := get_column grid (total_cnt_col class_name) in
      let* tot := get_column grid "total_cell_cnt" in
      let* quot := mapM (fun p => pd_truediv (fst p) (snd p)) (zip cnt tot) in
      let values := map (fun q => fmul q (float_of_Z 100)) quot in
      let grid := set_column grid percentage_col (map VFloat values) in
      let grid := set_column grid percentage_col (map (fun q => VFloat (fillna0 q)) values) in
      percentage_loop rest grid
  end.

(** The [try] block of [add_percentage_columns]. *)
Definition percentage_columns (unique_class_names : list pyval)
    (grid : GeoDataFrame G) : result (GeoDataFrame G) :=
  let* total := sum_axis1 grid (map total_cnt_col unique_class_names) in
  let grid := set_column grid "total_cell_cnt" total in
  percentage_loop unique_class_names grid.

(** [add_percentage_columns(grid, nuclei)] *)
Definition add_percentage_columns (grid : option (GeoDataFrame G))
    (nuclei : option (GeoDataFrame G)) : result (option (GeoDataFrame G)) :=
  match nuclei with
  | None => Ok None
  | Some nuclei =>
      if empty nuclei then Ok None
      else
        match get_column nuclei "class_name" with
        | Raise (KeyError _) => Ok None
        | Raise e => Raise e
        | Ok col =>
            let* unique_class_names := unique col in
            let* grid := classify_loop nuclei unique_class_names grid in
            match grid with
            | None => Ok None
            | Some g =>
                if empty g then Ok None
                else
                  except_KeyError
                    (let* g' := percentage_columns unique_class_names g in Ok (Some g'))
                    (fun _ => Ok None)
            end
        end
  end.

(** [parse_classification(x)] *)
Definition parse_classification (x : pyval) : pyval :=
  match x with
  | VStr s =>
      match json_loads E s with
      | Some v => v
      | None => VDict [("name", VNone)]
      end
  | VDict _ => x
  | _ => VDict [("name", VNone)]
  end.

(** [x.get(key, default)] and [s.lower()]: attributes of dicts and of
    strings only. *)
Definition py_get (x : pyval) (key : string) (default : pyval) : result pyval :=
  match x with
  | VDict d => Ok (dict_get d key default)
  | _ => Raise AttributeError
  end.

Definition py_lower (v : pyval) : result pyval :=
  match v with
  | VStr s => Ok (VStr (Str.lower s))
  | _ => Raise AttributeError
  end.

(** [lambda x: x.get("name", "").lower() if x else None] *)
Definition tissue_class_name (x : pyval) : result pyval :=
  if truthy x
  then let* n := py_get x "name" (VStr "") in py_lower n
  else Ok VNone.

(** [lambda x: x.get("name", "")] *)
Definition nuclei_class_name (x : pyval) : result pyval :=
  py_get x "name" (VStr "").

(** The statements of the [try] block that parses the classifications,
    lines 89 to 104. *)
Definition classify (tissue nuclei : GeoDataFrame G)
    : result (GeoDataFrame G * GeoDataFrame G) :=
  let* _ := get_column tissue "classification" in
  let tissue := filter_rows (fun r => notnull (cell r "classification")) tissue in
  let* col := get_column tissue "classification" in
  let tissue := set_column tissue "classification" (map parse_classification col) in
  let* col := get_column tissue "classification" in
  let* names := mapM tissue_class_name col in
  let tissue := set_column tissue "class_name" names in
  let* col := get_column nuclei "classification" in
  let nuclei := set_column nuclei "classification" (map parse_classification col) in
  let* col := get_column nuclei "classification" in
  let* names := mapM nuclei_class_name col in
  let nuclei := set_column nuclei "class_name" names in
  Ok (tissue, nuclei).

(** [tissue[tissue["class_name"] == name]] *)
Definition class_filter (name : string) (tissue : GeoDataFrame G) : GeoDataFrame G :=
  filter_rows (fun r => pd_eq (cell r "class_name") (VStr name)) tissue.

(** [gpd.sjoin(left, right, how='inner', predicate='within')] *)
Definition sjoin_within (left right : GeoDataFrame G) : result (GeoDataFrame G) :=
  match sjoin_fault E left right with
  | Some e => Raise e
  | None =>
      Ok {| columns := sjoin_columns left right;
            rows := sjoin_rows (within E) left right |}
  end.

(** The first three statements of the spatial [try] block: the nuclei
    within a tumor polygon, with the columns of the nuclei. *)
Definition nuclei_within_tumor (nuclei tumor_filter : GeoDataFrame G)
    : result (GeoDataFrame G) :=
  let* joined := sjoin_within nuclei tumor_filter in
  let* dropped :=
    drop_columns joined
      ["index_right"; "id_right"; "objectType_right"; "classification_right";
       "class_name_right"] in
  Ok (rename_columns (fun col => Str.replace col "_left" "") dropped).

(** The remaining statements, lines 116 to 119. *)
Definition not_necrosis (nuclei_within_tumor necrosis_filter : GeoDataFrame G)
    : result (GeoDataFrame G) :=
  let* nuclei_within_necrosis := sjoin_within nuclei_within_tumor necrosis_filter in
  let nuclei_within_necrosis_ids : gset Z :=
    list_to_set (map r_index (rows nuclei_within_necrosis)) in
  let nuclei_within_tumor_not_necrosis :=
    filter_rows (fun r => negb (bool_decide (r_index r ∈ nuclei_within_necrosis_ids)))
      nuclei_within_tumor in
  Ok (drop_duplicates_geometry nuclei_within_tumor_not_necrosis).

Definition spatial_filter (nuclei tumor_filter necrosis_filter : GeoDataFrame G)
    : result (GeoDataFrame G) :=
  let* nwt := nuclei_within_tumor nuclei tumor_filter in
  not_necrosis nwt necrosis_filter.

(** The grid [try] block. *)
Definition grid_step (args : arguments) (nuclei_within_tumor_not_necrosis : GeoDataFrame G)
    : result (option (GeoDataFrame G)) :=
  let* grid := grid_overlay E nuclei_within_tumor_not_necrosis (pixel_grid_size args) in
  add_percentage_columns grid (Some nuclei_within_tumor_not_necrosis).

Definition output_filepath (args : arguments) (geojson : string) : string :=
  path_div (results_path args) (stem geojson ++ ".csv").

Definition lock_file (args : arguments) (geojson : string) : string :=
  path_div (results_path args) (stem geojson ++ ".lock").

Definition nuclei_within_tissue_output_path (args : arguments) (geojson : string) : string :=
  path_div (geojson_output_path args)
    (stem geojson ++ "_nuclei_within_tumor_not_necrosis.geojson").

(** The body of the loop of [process_geojson_files] for a file name that is
    in [tissue_files]. *)
Definition process_sample (args : arguments) (geojson : string) (st : state G)
    : outcome * state G :=
  let st := emit (EvExists (output_filepath args geojson)) st in
  if path_exists (output_filepath args geojson) st then (Skipped AlreadyExists, st)
  else
  let st := emit (EvExists (lock_file args geojson)) st in
  if path_exists (lock_file args geojson) st then (Skipped Locked, st)
  else
  let st := write_file (lock_file args geojson) LockFile
              (emit (EvCreate (lock_file args geojson)) st) in
  let tissue_geojson_path := path_div (tissue_geojson_folder args) geojson in
  let st := emit (EvGetSize tissue_geojson_path) st in
  if (getsize E tissue_geojson_path <? 2 * 1024)%Z then (Skipped TissueTooSmall, st)
  else
  let st := emit (EvReadGdf tissue_geojson_path) st in
  match read_gdf E tissue_geojson_path with
  | Raise e => (Skipped (LoadError e), st)
  | Ok tissue =>
  let nuclei_geojson_path := path_div (nuclei_geojson_folder args) geojson in
  let st := emit (EvReadGdf nuclei_geojson_path) st in
  match read_gdf E nuclei_geojson_path with
  | Raise e => (Skipped (LoadError e), st)
  | Ok nuclei =>
  match classify tissue nuclei with
  | Raise (KeyError k) => (Skipped (MissingKey k), st)
  | Raise e => (Uncaught e, st)
  | Ok (tissue, nuclei) =>
  let tumor_filter := class_filter "tumor" tissue in
  let necrosis_filter := class_filter "necrosis" tissue in
  match spatial_filter nuclei tumor_filter necrosis_filter with
  | Raise e => (Skipped (JoinError e), st)
  | Ok nuclei_within_tumor_not_necrosis =>
  let out := nuclei_within_tissue_output_path args geojson in
  let st := emit (EvToFile out) st in
  match to_file_fault E nuclei_within_tumor_not_necrosis with
  | Some e => (Uncaught e, st)
  | None =>
  let st := write_file out (GeoJSONFile nuclei_within_tumor_not_necrosis) st in
  match grid_step args nuclei_within_tumor_not_necrosis with
  | Raise e => (Skipped (GridError e), st)
  | Ok grid =>
  let st :=
    match grid with
    | Some g =>
        write_file (output_filepath args geojson) (CSVFile g)
          (emit (EvToCsv (output_filepath args geojson)) st)
    | None => st
    end in
  let st := remove_file (lock_file args geojson)
              (emit (EvRemove (lock_file args geojson)) st) in
  (Completed (bool_decide (is_Some grid)), st)
  end end end end end end.

(** [process_geojson_files]: the loop over [nuclei_files]. An exception
    that escapes an iteration ends the run. *)
Fixpoint process_geojson_files (args : arguments) (nuclei_files tissue_files : list string)
    (st : state G) : result unit * state G :=
  match nuclei_files with
  | [] => (Ok tt, st)
  | geojson :: rest =>
      if decide (geojson ∈ tissue_files) then
        match process_sample args geojson st with
        | (Uncaught e, st') => (Raise e, st')
        | (_, st') => process_geojson_files args rest tissue_files st'
        end
      else process_geojson_files args rest tissue_files st
  end.

(** [main()], once the arguments are parsed and the two output folders
    exist. *)
Definition main (args : arguments) (st : state G) : result unit * state G :=
  let nuclei_files := listdir E (nuclei_geojson_folder args) in
  let tissue_files := listdir E (tissue_geojson_folder args) in
  process_geojson_files args nuclei_files tissue_files st.

End Script.

End Stage2.

(** ** The statements of the design document, and sample inputs *)

Module Claims1.

Import Stage1.

(** *** Stage 1 *)

(** The color table as the design document words it. *)
Definition documented_color (name : string) : list Z :=
  if String.eqb name "lymphocyte" then [0; 255; 255]
  else if String.eqb name "tumor" then [255; 0; 0]
  else if String.eqb name "other" then [255; 255; 0]
  else [0; 0; 0].

(** The color table of the script, entry by entry. *)
Definition table_color (name : pyval) : list Z :=
  match name with
  | VStr s =>
      if String.eqb s "nuclei_lymphocyte" then [0; 255; 255]
      else if String.eqb s "nuclei_tumor" then [255; 0; 0]
      else if String.eqb s "nuclei_other" then [255; 255; 0]
      else [0; 0; 0]
  | _ => [0; 0; 0]
  end.

Definition feature_color (f : feature) : list Z :=
  cls_color (prop_classification (feat_properties f)).

Definition feature_name (f : feature) : pyval :=
  cls_name (prop_classification (feat_properties f)).

(** The exact points of a ring of binary64 coordinates. *)
Definition vertex_value (v : list float) : option (Q * Q) :=
  match v with
  | [a; b] =>
      match float_to_Q a, float_to_Q b with
      | Some qa, Some qb => Some (qa, qb)
      | _, _ => None
      end
  | _ => None
  end.

Fixpoint ring_value (ring : list (list float)) : option (list (Q * Q)) :=
  match ring with
  | [] => Some []
  | v :: ring' =>
      match vertex_value v, ring_value ring' with
      | Some p, Some ps => Some (p :: ps)
      | _, _ => None
      end
  end.

Definition same_point (p q : Q * Q) : Prop :=
  (fst p == fst q)%Q /\ (snd p == snd q)%Q.

(** The two closed rings around the axis-aligned square of edge [size]
    centered on [(cx, cy)] that start at its bottom-left corner. *)
Definition square_ring (cx cy size : Q) (counter_clockwise : bool) : list (Q * Q) :=
  let h := (size / 2)%Q in
  let bl := ((cx - h)%Q, (cy - h)%Q) in
  let br := ((cx + h)%Q, (cy - h)%Q) in
  let tr := ((cx + h)%Q, (cy + h)%Q) in
  let tl := ((cx - h)%Q, (cy + h)%Q) in
  if counter_clockwise then [bl; br; tr; tl; bl] else [bl; tl; tr; br; bl].

(** "A closed ring of 5 vertices, an axis-aligned square of edge length 15
    centered exactly on [(x, y)], starting at the bottom-left corner". *)
Definition centered_square_15 (x y : float) (ring : list (list float)) : Prop :=
  exists qx qy pts orientation,
    float_to_Q x = Some qx /\ float_to_Q y = Some qy /\
    ring_value ring = Some pts /\
    length pts = 5%nat /\
    Forall2 same_point pts (square_ring qx qy 15 orientation).

(** A binary64 result that is the exact rational [q]: no rounding took
    place. *)
Definition exactly (f : float) (q : Q) : Prop :=
  exists q', float_to_Q f = Some q' /\ (q' == q)%Q.

Definition seven_and_a_half : float := S754_finite false 8444249301319680 (-50).

(** Sample inputs for Stage 1. *)
Definition two_to_the_60 : float := S754_finite false 4503599627370496 8.
Definition float_zero : float := S754_zero false.
Definition float_3_25 : float := S754_finite false 7318349394477056 (-51).
Definition float_minus_2 : float := S754_finite true 4503599627370496 (-51).

Definition sample_row : tsv_row :=
  {| row_x := float_3_25; row_y := float_minus_2; row_name := VStr "lymphocyte" |}.

Definition sample_rows : list tsv_row :=
  [ {| row_x := float_3_25; row_y := float_minus_2; row_name := VStr "nuclei_tumor" |};
    {| row_x := float_zero; row_y := float_3_25; row_name := VStr "lymphocyte" |};
    {| row_x := float_zero; row_y := float_zero; row_name := VFloat S754_nan |} ].

(** A folder [in] with the subfolders [s1] (one TSV file) and [s2] (none). *)
Definition sample_externals : externals :=
  {| listdir := fun p =>
       if String.eqb p "in" then ["s1"; "s2"; "s1.geojson"]
       else if String.eqb p "in/s1" then ["cells.tsv"; "readme.txt"]
       else [];
     isdir := fun p => String.eqb p "in/s1" || String.eqb p "in/s2";
     read_csv := fun p =>
       if String.eqb p "in/s1/cells.tsv" then Ok sample_rows
       else Raise (OtherError "FileNotFoundError");
     uuid4 := fun n => "uuid-" ++ pretty n |}.

Definition empty_state : state := {| files := ∅; drawn := 0 |}.

End Claims1.

Module Claims2.

Import Stage2.

(** *** Stage 2: the order of the skip conditions *)

Inductive skip_condition :=
| OutputExists
| LockExists
| SmallTissue
| TissueLoadFails (e : exn)
| NucleiLoadFails (e : exn).

Section Conditions.
Context {G : Type} `{EqDecision G} (E : externals G) (args : arguments).

Definition tissue_path (geojson : string) : string :=
  path_div (tissue_geojson_folder args) geojson.

Definition nuclei_path (geojson : string) : string :=
  path_div (nuclei_geojson_folder args) geojson.

(** The skip conditions in the order the design document lists them: the
    first that holds, if any. *)
Definition first_skip_condition (geojson : string) (st : state G)
    : option skip_condition :=
  if path_exists (output_filepath args geojson) st then Some OutputExists
  else if path_exists (lock_file args geojson) st then Some LockExists
  else if (getsize E (tissue_path geojson) <? 2 * 1024)%Z then Some SmallTissue
  else
    match read_gdf E (tissue_path geojson) with
    | Raise e => Some (TissueLoadFails e)
    | Ok _ =>
        match read_gdf E (nuclei_path geojson) with
        | Raise e => Some (NucleiLoadFails e)
        | Ok _ => None
        end
    end.

Definition reason_of (c : skip_condition) : skip_reason :=
  match c with
  | OutputExists => AlreadyExists
  | LockExists => Locked
  | SmallTissue => TissueTooSmall
  | TissueLoadFails e => LoadError e
  | NucleiLoadFails e => LoadError e
  end.

(** The calls made up to the [continue] of a skip condition. *)
Definition calls_until (geojson : string) (c : skip_condition) : list event :=
  let csv := output_filepath args geojson in
  let lock := lock_file args geojson in
  match c with
  | OutputExists => [EvExists csv]
  | LockExists => [EvExists csv; EvExists lock]
  | SmallTissue =>
      [EvExists csv; EvExists lock; EvCreate lock; EvGetSize (tissue_path geojson)]
  | TissueLoadFails _ =>
      [EvExists csv; EvExists lock; EvCreate lock; EvGetSize (tissue_path geojson);
       EvReadGdf (tissue_path geojson)]
  | NucleiLoadFails _ =>
      [EvExists csv; EvExists lock; EvCreate lock; EvGetSize (tissue_path geojson);
       EvReadGdf (tissue_path geojson); EvReadGdf (nuclei_path geojson)]
  end.

(** The lock marker is created between the second and the third check. *)
Definition files_until (geojson : string) (c : skip_condition) (st : state G)
    : gmap string (content G) :=
  match c with
  | OutputExists | LockExists => files st
  | _ => <[lock_file args geojson := LockFile]> (files st)
  end.

(** A classification payload that is a string [json.loads] rejects, or is
    neither a string nor a dict. *)
Definition malformed (x : pyval) : Prop :=
  match x with
  | VStr s => json_loads E s = None
  | VDict _ => False
  | _ => True
  end.

(** The placeholder with a null name. *)
Definition placeholder : pyval := VDict [("name", VNone)].

(** A tissue polygon of the file that the script takes for a region of
    class [name]: its label is not null, and the lower-cased name of the
    parsed label is [name]. *)
Definition tissue_classified_as (name : string) (t : row G) : Prop :=
  notnull (cell t "classification") = true /\
  tissue_class_name (parse_classification E (cell t "classification"))
  = Ok (VStr name).

(** The identity of a row, and what it covers. *)
Definition key (r : row G) : Z * G := (r_index r, r_geometry r).

(** "Nuclei within tumor": one entry per nucleus and tumor polygon it is
    within. *)
Definition within_tumor_pairs (nuclei tumor : list (row G)) : list (Z * G) :=
  flat_map (fun n =>
      map (fun _ => key n)
          (List.filter (fun t => within E (r_geometry n) (r_geometry t)) tumor))
    nuclei.

Definition within_some (g : G) (polygons : list (row G)) : bool :=
  existsb (fun t => within E g (r_geometry t)) polygons.

(** "Deduplicated by geometry": a row stays when no row before it has its
    geometry. *)
Fixpoint first_of_each_geometry (l : list (row G)) : list (row G) :=
  match l with
  | [] => []
  | r :: l' =>
      r :: List.filter (fun r' => negb (bool_decide (r_geometry r' = r_geometry r)))
             (first_of_each_geometry l')
  end.

(** "(Nuclei within tumor) minus (nuclei within tumor that are also within
    necrosis), matched by feature identity, then deduplicated by
    geometry". *)
Definition retained_spec (within_tumor necrosis : list (row G)) : list (row G) :=
  let also_within_necrosis :=
    List.filter (fun r => within_some (r_geometry r) necrosis) within_tumor in
  let identities := map r_index also_within_necrosis in
  first_of_each_geometry
    (List.filter (fun r => negb (bool_decide (r_index r ∈ identities))) within_tumor).

(** A cell that holds a count. *)
Definition is_count (v : pyval) : Prop := exists n, v = VInt n /\ 0 <= n.

(** "[100 × count / total] when the total is positive, else [0]", as it
    is written: the product, then the quotient, in binary64. *)
Definition documented_percentage (count total : Z) : float :=
  if (0 <? total)%Z
  then fdiv (fmul (float_of_Z 100) (float_of_Z count)) (float_of_Z total)
  else S754_zero false.

(** A lock marker without statistics table. *)
Definition stale_lock (geojson : string) (st : state G) : Prop :=
  files st !! lock_file args geojson = Some LockFile /\
  files st !! output_filepath args geojson = None.

(** The sample gets as far as the grid [try] block with the retained
    nuclei [retained], already written to the output folder. *)
Definition reaches_grid_step (geojson : string) (st : state G)
    (retained : GeoDataFrame G) : Prop :=
  path_exists (output_filepath args geojson) st = false /\
  path_exists (lock_file args geojson) st = false /\
  (getsize E (tissue_path geojson) <? 2 * 1024)%Z = false /\
  exists tissue0 nuclei0 tissue nuclei,
    read_gdf E (tissue_path geojson) = Ok tissue0 /\
    read_gdf E (nuclei_path geojson) = Ok nuclei0 /\
    classify E tissue0 nuclei0 = Ok (tissue, nuclei) /\
    spatial_filter E nuclei (class_filter "tumor" tissue)
      (class_filter "necrosis" tissue) = Ok retained /\
    to_file_fault E retained = None.

(** The grid is [None] or has no row once the per-class counts have been
    added. *)
Definition classified_grid_empty (nuclei : GeoDataFrame G)
    (grid : option (GeoDataFrame G)) : Prop :=
  exists col unique_class_names classified,
    get_column nuclei "class_name" = Ok col /\
    unique col = Ok unique_class_names /\
    classify_loop E nuclei unique_class_names grid = Ok classified /\
    match classified with
    | None => True
    | Some g => empty g = true
    end.

End Conditions.

(** *** A sample world: rectangles as geometries *)

Definition box : Type := Z * Z * Z * Z.

Definition box_within (a b : box) : bool :=
  let '(ax0, ay0, ax1, ay1) := a in
  let '(bx0, by0, bx1, by1) := b in
  (bx0 <=? ax0)%Z && (ax1 <=? bx1)%Z && (by0 <=? ay0)%Z && (ay1 <=? by1)%Z.

Definition box_intersects (a b : box) : bool :=
  let '(ax0, ay0, ax1, ay1) := a in
  let '(bx0, by0, bx1, by1) := b in
  (ax0 <=? bx1)%Z && (bx0 <=? ax1)%Z && (ay0 <=? by1)%Z && (by0 <=? ay1)%Z.

Definition feature_row (index : Z) (geometry : box) (id : string)
    (classification : pyval) : row box :=
  {| r_index := index; r_geometry := geometry;
     r_attrs := list_to_map [("id", VStr id); ("objectType", VStr "annotation");
                             ("classification", classification)] |}.

Definition named (name : string) : pyval := VDict [("name", VStr name)].

Definition feature_columns : list string := ["id"; "objectType"; "classification"].

(** A tumor region, a necrotic region inside it, and a region without
    label. *)
Definition sample_tissue : GeoDataFrame box :=
  {| columns := feature_columns;
     rows := [ feature_row 0 (0, 0, 100, 100) "t0" (named "Tumor");
               feature_row 1 (40, 40, 60, 60) "t1" (named "Necrosis");
               feature_row 2 (300, 300, 400, 400) "t2" VNone ] |}.

(** Nuclei in the tumor, in the necrosis and outside; the fourth repeats
    the geometry of the first. *)
Definition sample_nuclei : GeoDataFrame box :=
  {| columns := feature_columns;
     rows := [ feature_row 0 (10, 10, 12, 12) "n0" (named "nuclei_lymphocyte");
               feature_row 1 (50, 50, 52, 52) "n1" (named "nuclei_tumor");
               feature_row 2 (200, 200, 202, 202) "n2" (named "nuclei_other");
               feature_row 3 (10, 10, 12, 12) "n3" (named "nuclei_lymphocyte");
               feature_row 4 (20, 20, 22, 22) "n4" (named "nuclei_tumor") ] |}.

(** A tissue file with a label that is not JSON. *)
Definition badlabel_tissue : GeoDataFrame box :=
  {| columns := feature_columns;
     rows := [ feature_row 0 (0, 0, 100, 100) "t0" (VStr "not json") ] |}.

(** Nuclei on which the sample [grid_overlay] raises. *)
Definition gridfail_nuclei : GeoDataFrame box :=
  {| columns := feature_columns;
     rows := [ feature_row 99 (10, 10, 12, 12) "n99" (named "nuclei_tumor") ] |}.

(** Nuclei without [id] column: the join then has no [id_right] to drop. *)
Definition noid_nuclei : GeoDataFrame box :=
  {| columns := ["objectType"; "classification"];
     rows := [ {| r_index := 0; r_geometry := (10, 10, 12, 12);
                  r_attrs := list_to_map [("objectType", VStr "annotation");
                                          ("classification", named "nuclei_tumor")] |} ] |}.

(** Nuclei outside every tumor region. *)
Definition outside_nuclei : GeoDataFrame box :=
  {| columns := feature_columns;
     rows := [ feature_row 0 (200, 200, 202, 202) "n0" (named "nuclei_other") ] |}.

(** A grid of three cells, the last away from every nucleus. *)
Definition sample_grid : GeoDataFrame box :=
  {| columns := [];
     rows := [ {| r_index := 0; r_geometry := (0, 0, 15, 15); r_attrs := ∅ |};
               {| r_index := 1; r_geometry := (15, 0, 30, 30); r_attrs := ∅ |};
               {| r_index := 2; r_geometry := (500, 500, 600, 600); r_attrs := ∅ |} ] |}.

Definition sample_args : arguments :=
  {| nuclei_geojson_folder := "nuclei";
     tissue_geojson_folder := "tissue";
     results_path := "results";
     geojson_output_path := "out";
     pixel_grid_size := default_pixel_grid_size |}.

Definition sample_externals : externals box :=
  {| within := box_within;
     intersects := box_intersects;
     json_loads := fun s =>
       if String.eqb s "null" then Some VNone
       else if String.eqb s "{}" then Some (VDict [])
       else None;
     float_repr := fun _ => "nan";
     listdir := fun p =>
       if String.eqb p "nuclei"
       then ["a.geojson"; "small.geojson"; "gridfail.geojson"; "noid.geojson";
             "badlabel.geojson"; "outside.geojson"; "nuclei_only.geojson"]
       else if String.eqb p "tissue"
       then ["a.geojson"; "small.geojson"; "gridfail.geojson"; "noid.geojson";
             "badlabel.geojson"; "outside.geojson"]
       else [];
     getsize := fun p => if String.eqb p "tissue/small.geojson" then 1500 else 4096;
     read_gdf := fun p =>
       if String.eqb p "tissue/badlabel.geojson" then Ok badlabel_tissue
       else if Str.startswith p "tissue/" then Ok sample_tissue
       else if String.eqb p "nuclei/gridfail.geojson" then Ok gridfail_nuclei
       else if String.eqb p "nuclei/noid.geojson" then Ok noid_nuclei
       else if String.eqb p "nuclei/outside.geojson" then Ok outside_nuclei
       else if Str.startswith p "nuclei/" then Ok sample_nuclei
       else Raise (OtherError "DriverError");
     sjoin_fault := fun _ _ => None;
     to_file_fault := fun _ => None;
     grid_overlay := fun gdf _ =>
       if empty gdf then Ok None
       else if existsb (fun r => (r_index r =? 99)%Z) (rows gdf)
       then Raise (OtherError "ValueError")
       else Ok (Some sample_grid) |}.

Definition no_files : state box := {| files := ∅; trace := [] |}.

(** The retained nuclei of the sample [a.geojson], and its table. *)
Definition a_retained : GeoDataFrame box :=
  Eval vm_compute in
    match classify sample_externals sample_tissue sample_nuclei with
    | Ok (tissue, nuclei) =>
        match spatial_filter sample_externals nuclei
                (class_filter "tumor" tissue) (class_filter "necrosis" tissue) with
        | Ok retained => retained
        | Raise _ => sample_nuclei
        end
    | Raise _ => sample_nuclei
    end.

Definition a_table : GeoDataFrame box :=
  Eval vm_compute in
    match add_percentage_columns sample_externals (Some sample_grid) (Some a_retained) with
    | Ok (Some table) => table
    | _ => sample_grid
    end.

(** Nuclei that carry their class name, as [add_percentage_columns]
    receives them: 7 lymphocytes and 18 tumor cells over one grid cell. *)
Definition classed_row (index : Z) (geometry : box) (class_name : string) : row box :=
  {| r_index := index; r_geometry := geometry;
     r_attrs := list_to_map [("class_name", VStr class_name)] |}.

Definition dense_nuclei : GeoDataFrame box :=
  {| columns := ["class_name"];
     rows := map (fun i =>
                 classed_row i (0, 0, 1, 1 + i)
                   (if (i <? 7)%Z then "nuclei_lymphocyte" else "nuclei_tumor"))
               (seqZ 0 25) |}.

Definition one_cell_grid : GeoDataFrame box :=
  {| columns := [];
     rows := [ {| r_index := 0; r_geometry := (0, 0, 15, 15); r_attrs := ∅ |} ] |}.

(** Two nuclei whose class names make the count column of the first the
    percentage column of the second. *)
Definition colliding_nuclei : GeoDataFrame box :=
  {| columns := ["class_name"];
     rows := [ classed_row 0 (0, 0, 1, 1) "_percentage";
               classed_row 1 (0, 0, 1, 2) "total_cnt_" ] |}.

(** The frames of the sample [outside.geojson] after [classify], and its
    retained nuclei. *)
Definition outside_tissue : GeoDataFrame box :=
  Eval vm_compute in
    match classify sample_externals sample_tissue outside_nuclei with
    | Ok (tissue, _) => tissue
    | Raise _ => sample_tissue
    end.

Definition outside_classified : GeoDataFrame box :=
  Eval vm_compute in
    match classify sample_externals sample_tissue outside_nuclei with
    | Ok (_, nuclei) => nuclei
    | Raise _ => outside_nuclei
    end.

Definition outside_retained : GeoDataFrame box :=
  Eval vm_compute in
    match spatial_filter sample_externals outside_classified
            (class_filter "tumor" outside_tissue)
            (class_filter "necrosis" outside_tissue) with
    | Ok retained => retained
    | Raise _ => outside_classified
    end.

End Claims2.

(** ** Proofs *)


Local Close Scope string_scope.
Local Open Scope Z_scope.

(** *** Stage 1: colors *)

Section Stage1Facts.
Import Stage1 Claims1.

Lemma rows_loop_app (E : externals) (data : list tsv_row) (n : nat) (acc : list feature) :
  rows_loop E data n acc =
  (acc ++ imap (fun i row => make_feature (uuid4 E (n + i)) row) data,
   (n + length data)%nat).
Proof.
  revert n acc. induction data as [|row data IH]; intros n acc; simpl.
  - by rewrite app_nil_r, Nat.add_0_r.
  - rewrite IH. rewrite <- app_assoc. simpl. rewrite Nat.add_0_r.
    f_equal; [|lia]. do 2 f_equal. apply imap_ext. intros i x _. simpl.
    by rewrite Nat.add_succ_r.
Qed.

Lemma colors_get_table (name : pyval) : colors_get name [0; 0; 0] = table_color name.
Proof.
  destruct name as [| | | |s| |]; try reflexivity.
  unfold colors_get, table_color, COLORS. cbn [dict_get].
  rewrite !(String.eqb_sym s).
  repeat (destruct (String.eqb _ s); [reflexivity|]). reflexivity.
Qed.

(** C7, as the script has it: every feature made from a point row carries
    the name of the row and the color the table of the script gives that
    name, the keys of the table being [nuclei_lymphocyte] (cyan),
    [nuclei_tumor] (red) and [nuclei_other] (yellow); every other name,
    the bare [lymphocyte], [tumor] and [other] among them, and every cell
    that is not a string, gets black. *)
Theorem feature_color_follows_table (E : externals) (data : list tsv_row)
    (n : nat) (acc : list feature) :
  (exists new,
     fst (rows_loop E data n acc) = acc ++ new /\
     Forall2 (fun row f =>
         feature_name f = row_name row /\
         feature_color f = table_color (row_name row)) data new) /\
  table_color (VStr "nuclei_lymphocyte") = [0; 255; 255] /\
  table_color (VStr "nuclei_tumor") = [255; 0; 0] /\
  table_color (VStr "nuclei_other") = [255; 255; 0] /\
  table_color (VStr "lymphocyte") = [0; 0; 0] /\
  table_color (VStr "tumor") = [0; 0; 0] /\
  table_color (VStr "other") = [0; 0; 0].
Proof.
  split; [|by repeat split].
  rewrite rows_loop_app. simpl. eexists; split; [reflexivity|].
  generalize n. induction data as [|row data IH]; intros k; simpl; constructor.
  - split; [reflexivity|]. apply colors_get_table.
  - specialize (IH (S k)).
    erewrite imap_ext; [exact IH|]. intros i x _. simpl.
    by rewrite Nat.add_succ_r.
Qed.

(** C7 as worded fails: a row named [lymphocyte] gets black, not cyan. *)
Lemma lymphocyte_row_is_black :
  feature_name (make_feature "id" sample_row) = VStr "lymphocyte" /\
  feature_color (make_feature "id" sample_row) = [0; 0; 0] /\
  feature_color (make_feature "id" sample_row) <> documented_color "lymphocyte".
Proof. repeat split. discriminate. Qed.

(** *** Stage 1: the polygon *)

Lemma half_of_default_size :
  fdiv (float_of_Z default_size) (float_of_Z 2) = seven_and_a_half.
Proof. vm_compute. reflexivity. Qed.

(** C8 as worded fails: at [x = 2^60] the two additions round back to [x],
    and the ring has no width. *)
Lemma huge_coordinate_not_square :
  is_finite two_to_the_60 = true /\ is_finite float_zero = true /\
  ~ centered_square_15 two_to_the_60 float_zero
      (create_square_polygon two_to_the_60 float_zero default_size).
Proof.
  split; [reflexivity|]. split; [reflexivity|].
  intros (qx & qy & pts & o & Hx & Hy & Hr & _ & Hsq).
  vm_compute in Hx, Hy, Hr. simplify_eq.
  destruct o; inversion Hsq as [|? ? ? ? [H1 _] _]; vm_compute in H1; discriminate.
Qed.

(** C8, as the script has it: the ring always has 5 vertices of two
    coordinates, the last equal to the first; it is the axis-aligned
    rectangle through the binary64 results [x - 7.5], [x + 7.5], [y - 7.5]
    and [y + 7.5], starting at the corner [(x - 7.5, y - 7.5)]; and when
    these four results are exact, it is the square of edge 15 centered on
    [(x, y)], starting at the bottom-left corner. *)
Theorem square_polygon_shape (x y : float) (qx qy : Q) :
  let ring := create_square_polygon x y default_size in
  let x0 := fsub x seven_and_a_half in
  let x1 := fadd x seven_and_a_half in
  let y0 := fsub y seven_and_a_half in
  let y1 := fadd y seven_and_a_half in
  ring = [[x0; y0]; [x1; y0]; [x1; y1]; [x0; y1]; [x0; y0]] /\
  length ring = 5%nat /\
  head ring = last ring /\
  (float_to_Q x = Some qx -> float_to_Q y = Some qy ->
   exactly x0 (qx - 15 / 2) -> exactly x1 (qx + 15 / 2) ->
   exactly y0 (qy - 15 / 2) -> exactly y1 (qy + 15 / 2) ->
   centered_square_15 x y ring).
Proof.
  intros ring x0 x1 y0 y1.
  assert (Hring : ring = [[x0; y0]; [x1; y0]; [x1; y1]; [x0; y1]; [x0; y0]]).
  { unfold ring, create_square_polygon. by rewrite half_of_default_size. }
  split; [exact Hring|]. rewrite Hring.
  split; [reflexivity|]. split; [reflexivity|].
  intros Hx Hy (a0 & Ha0 & Ea0) (a1 & Ha1 & Ea1) (b0 & Hb0 & Eb0) (b1 & Hb1 & Eb1).
  exists qx, qy, [(a0, b0); (a1, b0); (a1, b1); (a0, b1); (a0, b0)], true.
  split; [exact Hx|]. split; [exact Hy|].
  split. { simpl. by rewrite Ha0, Ha1, Hb0, Hb1. }
  split; [reflexivity|].
  unfold square_ring. repeat constructor; simpl; assumption.
Qed.

(** At [(3.25, -2)] the four results are exact. *)
Lemma square_polygon_shape_witness :
  centered_square_15 float_3_25 float_minus_2
    (create_square_polygon float_3_25 float_minus_2 default_size).
Proof.
  apply (square_polygon_shape float_3_25 float_minus_2 (7318349394477056 # 2251799813685248) (-4503599627370496 # 2251799813685248)).
  - vm_compute. reflexivity.
  - vm_compute. reflexivity.
  - eexists. split; [vm_compute; reflexivity|]. vm_compute. reflexivity.
  - eexists. split; [vm_compute; reflexivity|]. vm_compute. reflexivity.
  - eexists. split; [vm_compute; reflexivity|]. vm_compute. reflexivity.
  - eexists. split; [vm_compute; reflexivity|]. vm_compute. reflexivity.
Defined.

(** *** Stage 1: an existing output is left alone *)

Lemma process_subfolder_files (E : externals) (subfolder_path output_file : string)
    (st : state) :
  files (snd (process_subfolder E subfolder_path output_file st)) = files st \/
  exists doc,
    files (snd (process_subfolder E subfolder_path output_file st)) =
    <[path_join (dirname subfolder_path) output_file := doc]> (files st).
Proof.
  unfold process_subfolder.
  destruct (List.filter _ _) as [|f fs]; [by left|].
  destruct (files_loop _ _ _ _ _) as [[feats|e] n]; simpl; [|by left].
  right. by eexists.
Qed.

Lemma main_loop_preserves (E : externals) (input_dir : string)
    (subfolders : list string) (st : state) (p : string) (doc : feature_collection) :
  files st !! p = Some doc ->
  files (snd (main_loop E input_dir subfolders st)) !! p = Some doc.
Proof.
  revert st. induction subfolders as [|name rest IH]; intros st Hp; simpl; [done|].
  destruct (path_exists _ st) eqn:Hex; [by apply IH|].
  pose proof (process_subfolder_files E (path_join input_dir name)
                (name +:+ ".geojson") st) as Hfiles.
  destruct (process_subfolder _ _ _ st) as [[[]|e] st']; simpl in *.
  - apply IH. destruct Hfiles as [->|[d ->]]; [done|].
    rewrite lookup_insert_ne; [done|]. intros <-.
    unfold path_exists in Hex. apply bool_decide_eq_false in Hex.
    apply Hex. by eexists.
  - destruct Hfiles as [->|[d ->]]; [done|].
    rewrite lookup_insert_ne; [done|]. intros <-.
    unfold path_exists in Hex. apply bool_decide_eq_false in Hex.
    apply Hex. by eexists.
Qed.

(** C9: when the destination [<subfolder>.geojson] exists, the loop of
    [main] passes over the subfolder without drawing an identifier or
    touching a file; a whole run leaves the content of the destination as it
    was, and so does a second run after it. *)
Theorem existing_output_left_alone (E : externals) (input_dir subfolder_name : string)
    (rest : list string) (st : state) :
  let out := path_join (dirname (path_join input_dir subfolder_name))
               (subfolder_name +:+ ".geojson") in
  path_exists out st = true ->
  main_loop E input_dir (subfolder_name :: rest) st = main_loop E input_dir rest st /\
  files (snd (main E input_dir st)) !! out = files st !! out /\
  files (snd (main E input_dir (snd (main E input_dir st)))) !! out = files st !! out.
Proof.
  intros out Hex. split; [|split].
  - simpl. fold out. by rewrite Hex.
  - unfold path_exists in Hex. apply bool_decide_eq_true in Hex as [doc Hdoc].
    rewrite Hdoc. by apply main_loop_preserves.
  - unfold path_exists in Hex. apply bool_decide_eq_true in Hex as [doc Hdoc].
    rewrite Hdoc. unfold main at 1. by do 2 apply main_loop_preserves.
Qed.

(** On the sample folder: a second run after a first one. *)
Lemma existing_output_left_alone_witness :
  let st1 := snd (main sample_externals "in" empty_state) in
  path_exists "in/s1.geojson" st1 = true /\
  files (snd (main sample_externals "in" st1)) !! "in/s1.geojson"
  = files st1 !! "in/s1.geojson".
Proof.
  intros st1.
  assert (Hex : path_exists "in/s1.geojson" st1 = true) by (vm_compute; reflexivity).
  split; [exact Hex|].
  exact (proj1 (proj2 (existing_output_left_alone sample_externals "in" "s1" [] st1 Hex))).
Defined.

End Stage1Facts.

(** *** Strings and paths *)

Lemma list_ascii_of_string_app (s t : string) :
  list_ascii_of_string (s +:+ t) = list_ascii_of_string s ++ list_ascii_of_string t.
Proof. induction s as [|c s IH]; [done|]. cbn. by rewrite <- IH. Qed.

Lemma list_ascii_of_string_inj (s t : string) :
  list_ascii_of_string s = list_ascii_of_string t -> s = t.
Proof.
  intros H. rewrite <- (string_of_list_ascii_of_string s).
  rewrite <- (string_of_list_ascii_of_string t). by rewrite H.
Qed.

Lemma string_app_inv_tail (s1 s2 t : string) : s1 +:+ t = s2 +:+ t -> s1 = s2.
Proof.
  intros H. apply list_ascii_of_string_inj.
  apply (f_equal list_ascii_of_string) in H.
  rewrite !list_ascii_of_string_app in H. by apply app_inv_tail in H.
Qed.

Lemma last_char_app (s t : string) (c : ascii) :
  Str.last_char t = Some c -> Str.last_char (s +:+ t) = Some c.
Proof.
  unfold Str.last_char. rewrite list_ascii_of_string_app, last_app.
  by intros ->.
Qed.

Lemma last_char_neq (s t : string) (c d : ascii) :
  Str.last_char s = Some c -> Str.last_char t = Some d -> c <> d -> s <> t.
Proof. intros Hs Ht Hne ->. congruence. Qed.

Section Stage2Paths.
Import Stage2.
Context (args : arguments).

Lemma path_div_last (dir name : string) (c : ascii) :
  Str.last_char name = Some c -> Str.last_char (path_div dir name) = Some c.
Proof. intros H. unfold path_div. by do 2 apply last_char_app. Qed.

Lemma output_filepath_last (g : string) :
  Str.last_char (output_filepath args g) = Some "v"%char.
Proof. apply path_div_last. by apply last_char_app. Qed.

Lemma lock_file_last (g : string) :
  Str.last_char (lock_file args g) = Some "k"%char.
Proof. apply path_div_last. by apply last_char_app. Qed.

Lemma output_path_last (g : string) :
  Str.last_char (nuclei_within_tissue_output_path args g) = Some "n"%char.
Proof. apply path_div_last. by apply last_char_app. Qed.

Lemma lock_neq_csv (g g' : string) : lock_file args g <> output_filepath args g'.
Proof.
  eapply last_char_neq; [apply lock_file_last|apply output_filepath_last|done].
Qed.

Lemma lock_neq_out (g g' : string) :
  lock_file args g <> nuclei_within_tissue_output_path args g'.
Proof.
  eapply last_char_neq; [apply lock_file_last|apply output_path_last|done].
Qed.

Lemma csv_neq_out (g g' : string) :
  output_filepath args g <> nuclei_within_tissue_output_path args g'.
Proof.
  eapply last_char_neq; [apply output_filepath_last|apply output_path_last|done].
Qed.

(** Two samples share their table exactly when they share their lock. *)
Lemma csv_eq_lock_eq (g g' : string) :
  output_filepath args g = output_filepath args g' ->
  lock_file args g = lock_file args g'.
Proof.
  unfold output_filepath, lock_file, path_div. intros H.
  do 2 apply String.app_inj in H. apply string_app_inv_tail in H. by rewrite H.
Qed.

End Stage2Paths.

(** *** Binary64 arithmetic *)

Lemma iter_pos_invariant {A} (f : A -> A) (Inv : A -> Prop) :
  (forall x, Inv x -> Inv (f x)) ->
  forall p x, Inv x -> Inv (SpecFloat.iter_pos f p x).
Proof.
  intros Hf. induction p as [p IH|p IH|]; intros x Hx; simpl; auto.
Qed.

Lemma shr_1_nonneg (mrs : shr_record) : 0 <= shr_m mrs -> 0 <= shr_m (shr_1 mrs).
Proof.
  destruct mrs as [m r s]. simpl.
  destruct m as [|[p|p|]|[p|p|]]; simpl; lia.
Qed.

Lemma shr_nonneg (mrs : shr_record) (e n : Z) :
  0 <= shr_m mrs -> 0 <= shr_m (fst (shr mrs e n)).
Proof.
  intros Hm. destruct n as [|p|p]; simpl; try done.
  apply (iter_pos_invariant shr_1 (fun x => 0 <= shr_m x)); [apply shr_1_nonneg|done].
Qed.

Lemma shr_record_of_loc_m (m : Z) (l : location) : shr_m (shr_record_of_loc m l) = m.
Proof. by destruct l as [|[]]. Qed.

Lemma shr_fexp_nonneg (m e : Z) (l : location) :
  0 <= m -> 0 <= shr_m (fst (shr_fexp prec emax m e l)).
Proof.
  intros Hm. unfold shr_fexp. apply shr_nonneg. by rewrite shr_record_of_loc_m.
Qed.

Lemma round_nearest_even_nonneg (m : Z) (l : location) :
  0 <= m -> 0 <= round_nearest_even m l.
Proof.
  intros Hm. destruct l as [|[]]; simpl; try lia. destruct (Z.even m); lia.
Qed.

(** Rounding a non-negative mantissa never gives NaN. *)
Lemma binary_round_aux_not_nan (sx : bool) (mx ex : Z) (lx : location) :
  0 <= mx -> is_nan (binary_round_aux prec emax sx mx ex lx) = false.
Proof.
  intros Hm. unfold binary_round_aux.
  pose proof (shr_fexp_nonneg mx ex lx Hm) as H1.
  destruct (shr_fexp prec emax mx ex lx) as [mrs' e']. simpl in H1.
  pose proof (shr_fexp_nonneg _ e' loc_Exact
                (round_nearest_even_nonneg _ (loc_of_shr_record mrs') H1)) as H2.
  destruct (shr_fexp prec emax _ e' loc_Exact) as [mrs'' e'']. simpl in H2.
  destruct (shr_m mrs'') as [|p|p]; [done| |lia].
  by destruct (e'' <=? emax - prec).
Qed.

Lemma digits2_pos_size (p : positive) : digits2_pos p = Pos.size p.
Proof. induction p; simpl; congruence. Qed.

Lemma digits2_pos_small (p : positive) : Zpos p < 2 ^ 53 -> Zpos (digits2_pos p) <= 53.
Proof.
  intros Hp. rewrite digits2_pos_size.
  destruct (Z_le_gt_dec (Zpos (Pos.size p)) 53) as [|Hgt]; [done|exfalso].
  pose proof (Pos.size_le p) as Hle.
  assert (Hle' : Zpos (2 ^ Pos.size p) <= Zpos p~0) by done.
  rewrite Pos2Z.inj_pow in Hle'.
  assert (H54 : 2 ^ 54 <= 2 ^ Zpos (Pos.size p)) by (apply Z.pow_le_mono_r; lia).
  lia.
Qed.

Lemma digits2_pos_iter_xO (p k : positive) :
  Zpos (digits2_pos (Pos.iter xO p k)) = Zpos (digits2_pos p) + Zpos k.
Proof.
  induction k as [|k IH] using Pos.peano_ind.
  - simpl. lia.
  - rewrite Pos.iter_succ. simpl. rewrite Pos2Z.inj_succ, IH. lia.
Qed.

(** An integer below [2^53] converts to a finite, non-zero float. *)
Lemma float_of_Z_small (n : Z) :
  0 < n < 2 ^ 53 -> exists m e, float_of_Z n = S754_finite false m e.
Proof.
  intros [Hpos Hlt]. destruct n as [|p|p]; try lia.
  unfold float_of_Z, binary_normalize, binary_round.
  pose proof (digits2_pos_small p Hlt) as Hd.
  assert (Hd1 : 1 <= Zpos (digits2_pos p)) by lia.
  assert (Hfexp : fexp prec emax (Zpos (digits2_pos p) + 0) = Zpos (digits2_pos p) - 53).
  { unfold fexp, SpecFloat.emin, prec, emax. lia. }
  rewrite Hfexp. unfold shl_align.
  assert (Hround : forall mz ez, Zpos (digits2_pos mz) = 53 -> -52 <= ez <= 0 ->
            binary_round_aux prec emax false (Zpos mz) ez loc_Exact
            = S754_finite false mz ez).
  { intros mz ez Hmz Hez. unfold binary_round_aux, shr_fexp.
    assert (Hf : fexp prec emax (Zdigits2 (Zpos mz) + ez) - ez = 0).
    { simpl. rewrite Hmz. unfold fexp, SpecFloat.emin, prec, emax. lia. }
    rewrite Hf. simpl. rewrite Hmz.
    assert (Hf' : fexp prec emax (53 + ez) - ez = 0).
    { unfold fexp, SpecFloat.emin, prec, emax. lia. }
    rewrite Hf'. simpl.
    assert (Hle : (ez <=? emax - prec) = true) by (apply Z.leb_le; unfold emax, prec; lia).
    by rewrite Hle. }
  destruct (Zpos (digits2_pos p) - 53 - 0) as [|k|k] eqn:Hk; try lia.
  - eexists _, _. apply Hround; lia.
  - eexists _, _. apply Hround; [|lia].
    rewrite digits2_pos_iter_xO. lia.
Qed.

Lemma float_of_Z_not_nan (n : Z) : 0 <= n -> is_nan (float_of_Z n) = false.
Proof.
  intros Hn. destruct n as [|p|p]; [done| |lia].
  unfold float_of_Z, binary_normalize, binary_round.
  destruct (shl_align _ _ _) as [mz ez]. by apply binary_round_aux_not_nan.
Qed.

Lemma div_core_nonneg (m1 m2 : positive) (e1 e2 : Z) :
  0 <= fst (fst (SFdiv_core_binary prec emax (Zpos m1) e1 (Zpos m2) e2)).
Proof.
  unfold SFdiv_core_binary.
  set (s := _ - _ - Z.min _ _).
  set (m' := match s with Z0 => _ | Zpos _ => _ | Zneg _ => _ end).
  assert (Hm' : 0 <= m').
  { subst m'. destruct s; try lia. apply Z.shiftl_nonneg. lia. }
  pose proof (Z_div_mod m' (Zpos m2) ltac:(lia)) as Hdiv.
  destruct (Z.div_eucl m' (Zpos m2)) as [q r]. simpl.
  destruct Hdiv as [Heq Hr]. nia.
Qed.

(** The quotient of a float that is not NaN by a finite non-zero float is
    not NaN, and neither is its product with a finite non-zero float. *)
Lemma fdiv_not_nan (x : float) (s : bool) (m : positive) (e : Z) :
  is_nan x = false -> is_nan (fdiv x (S754_finite s m e)) = false.
Proof.
  intros Hx. destruct x as [sx|sx| |sx mx ex]; try done. simpl.
  unfold fdiv, SFdiv.
  pose proof (div_core_nonneg mx m ex e) as Hq.
  destruct (SFdiv_core_binary _ _ _ _ _ _) as [[mz ez] lz]. simpl in Hq.
  by apply binary_round_aux_not_nan.
Qed.

Lemma fmul_not_nan (x : float) (s : bool) (m : positive) (e : Z) :
  is_nan x = false -> is_nan (fmul x (S754_finite s m e)) = false.
Proof.
  intros Hx. destruct x as [sx|sx| |sx mx ex]; try done.
  unfold fmul, SFmul. by apply binary_round_aux_not_nan.
Qed.

Lemma hundred_finite : float_of_Z 100 = S754_finite false 7036874417766400 (-46).
Proof. vm_compute. reflexivity. Qed.

(** The percentage of a count in a positive total below [2^53] is not
    NaN; with a total of zero the quotient is NaN. *)
Lemma percentage_not_nan (n total : Z) :
  0 <= n -> 0 < total < 2 ^ 53 ->
  is_nan (fmul (fdiv (float_of_Z n) (float_of_Z total)) (float_of_Z 100)) = false.
Proof.
  intros Hn Ht. destruct (float_of_Z_small total Ht) as (m & e & ->).
  rewrite hundred_finite. apply fmul_not_nan, fdiv_not_nan.
  by apply float_of_Z_not_nan.
Qed.

Lemma percentage_of_nothing :
  fmul (fdiv (float_of_Z 0) (float_of_Z 0)) (float_of_Z 100) = S754_nan.
Proof. reflexivity. Qed.

(** *** Frames *)

Section FrameFacts.
Context {G : Type} `{EqDecision G}.

Lemma cell_set_cell (r : row G) (c : string) (v : pyval) : cell (set_cell c v r) c = v.
Proof. unfold cell, set_cell; simpl. by rewrite lookup_insert_eq. Qed.

Lemma cell_set_cell_ne (r : row G) (c c' : string) (v : pyval) :
  c <> c' -> cell (set_cell c v r) c' = cell r c'.
Proof. intros Hne. unfold cell, set_cell; simpl. by rewrite lookup_insert_ne. Qed.

Lemma column_of_zip_with (c : string) (values : list pyval) (rs : list (row G)) :
  length values = length rs ->
  map (fun r => cell r c) (zip_with (set_cell c) values rs) = values.
Proof.
  revert rs. induction values as [|v values IH]; intros [|r rs] Hlen; simpl in *;
    try done.
  rewrite cell_set_cell. f_equal. apply IH. lia.
Qed.

Lemma column_of_zip_with_ne (c c' : string) (values : list pyval) (rs : list (row G)) :
  c <> c' -> length values = length rs ->
  map (fun r => cell r c') (zip_with (set_cell c) values rs)
  = map (fun r => cell r c') rs.
Proof.
  intros Hne. revert rs.
  induction values as [|v values IH]; intros [|r rs] Hlen; simpl in *; try done.
  rewrite cell_set_cell_ne by done. f_equal. apply IH. lia.
Qed.

Lemma get_column_set_column (df : GeoDataFrame G) (c : string) (values : list pyval) :
  length values = length (rows df) ->
  get_column (set_column df c values) c = Ok values.
Proof.
  intros Hlen. unfold get_column, set_column; simpl.
  rewrite decide_True.
  - by rewrite column_of_zip_with.
  - destruct (decide (c ∈ columns df)); [done|]. apply elem_of_app. right.
    constructor.
Qed.

Lemma get_column_ok (df : GeoDataFrame G) (c : string) :
  c ∈ columns df -> get_column df c = Ok (map (fun r => cell r c) (rows df)).
Proof. intros Hin. unfold get_column. by rewrite decide_True. Qed.

Lemma get_column_length (df : GeoDataFrame G) (c : string) (col : list pyval) :
  get_column df c = Ok col -> length col = length (rows df).
Proof.
  unfold get_column. destruct (decide _); [|done]. intros [= <-].
  by rewrite length_map.
Qed.

Lemma mapM_length {A B} (f : A -> result B) (l : list A) (l' : list B) :
  mapM f l = Ok l' -> length l' = length l.
Proof.
  revert l'. induction l as [|x l IH]; intros l'; simpl.
  - by intros [= <-].
  - destruct (f x) as [y|e]; simpl; [|done].
    destruct (mapM f l) as [ys|e]; simpl; [|done].
    intros [= <-]. simpl. f_equal. by apply IH.
Qed.

(** A loop whose body raises nothing but [e], and raises it on some
    element, raises [e]. *)
Lemma mapM_raises {A B} (f : A -> result B) (l : list A) (e : exn) :
  (forall x e', f x = Raise e' -> e' = e) ->
  (exists x, x ∈ l /\ f x = Raise e) ->
  mapM f l = Raise e.
Proof.
  intros Honly (x & Hin & Hx). induction l as [|y l IH]; simpl.
  - by apply elem_of_nil in Hin.
  - destruct (f y) as [b|e'] eqn:Hy; simpl.
    + apply elem_of_cons in Hin as [->|Hin]; [congruence|].
      by rewrite IH.
    + f_equal. by eapply Honly.
Qed.

End FrameFacts.

(** *** Stage 2: the spatial filter *)

Section JoinFacts.
Import Stage2 Claims2.
Context {G : Type} `{EqDecision G} (E : externals G).

Lemma key_sjoin_row (left right : GeoDataFrame G) (l t : row G) :
  key (sjoin_row left right l t) = key l.
Proof. reflexivity. Qed.

Lemma sjoin_rows_In (predicate : G -> G -> bool) (left right : GeoDataFrame G)
    (r : row G) :
  In r (sjoin_rows predicate left right) <->
  exists l t, In l (rows left) /\ In t (rows right) /\
    predicate (r_geometry l) (r_geometry t) = true /\
    r = sjoin_row left right l t.
Proof.
  unfold sjoin_rows. rewrite in_flat_map. split.
  - intros (l & Hl & Hr). apply in_map_iff in Hr as (t & <- & Ht).
    apply filter_In in Ht as [Ht Hp]. by exists l, t.
  - intros (l & t & Hl & Ht & Hp & ->). exists l. split; [done|].
    apply in_map_iff. exists t. split; [done|]. by apply filter_In.
Qed.

Lemma sjoin_rows_keys (predicate : G -> G -> bool) (left right : GeoDataFrame G) :
  map key (sjoin_rows predicate left right) =
  flat_map (fun n =>
      map (fun _ => key n)
          (List.filter (fun t => predicate (r_geometry n) (r_geometry t)) (rows right)))
    (rows left).
Proof.
  unfold sjoin_rows. induction (rows left) as [|l ls IH]; simpl; [done|].
  rewrite map_app, IH. f_equal. by rewrite map_map.
Qed.

Lemma drop_columns_keys (df df' : GeoDataFrame G) (cs : list string) :
  drop_columns df cs = Ok df' -> map key (rows df') = map key (rows df).
Proof.
  unfold drop_columns. destruct (List.filter _ cs); [|done].
  intros [= <-]. simpl. by rewrite map_map.
Qed.

Lemma rename_columns_keys (f : string -> string) (df : GeoDataFrame G) :
  map key (rows (rename_columns f df)) = map key (rows df).
Proof. unfold rename_columns. simpl. by rewrite map_map. Qed.

Lemma nuclei_within_tumor_keys (nuclei tumor nwt : GeoDataFrame G) :
  nuclei_within_tumor E nuclei tumor = Ok nwt ->
  map key (rows nwt) = within_tumor_pairs E (rows nuclei) (rows tumor).
Proof.
  unfold nuclei_within_tumor, sjoin_within.
  destruct (sjoin_fault E nuclei tumor); [done|]. simpl.
  destruct (drop_columns _ _) as [dropped|e] eqn:Hdrop; [|done]. simpl.
  intros [= <-]. rewrite rename_columns_keys.
  rewrite (drop_columns_keys _ _ _ Hdrop). simpl. apply sjoin_rows_keys.
Qed.

(** Deduplication: the accumulator of [drop_duplicates] against the reading
    "no earlier row has this geometry". *)
Lemma filter_filter_comm {A} (p q : A -> bool) (l : list A) :
  List.filter p (List.filter q l) = List.filter (fun x => q x && p x) l.
Proof.
  induction l as [|x l IH]; simpl; [done|].
  destruct (q x); simpl; [|done]. destruct (p x); by rewrite IH.
Qed.

Lemma drop_duplicates_go_spec (seen : list G) (l : list (row G)) :
  drop_duplicates_go seen l =
  List.filter (fun r => negb (bool_decide (r_geometry r ∈ seen)))
    (first_of_each_geometry l).
Proof.
  revert seen. induction l as [|r l IH]; intros seen; simpl; [done|].
  rewrite filter_filter_comm.
  destruct (decide (r_geometry r ∈ seen)) as [Hin|Hnin].
  - rewrite bool_decide_eq_true_2 by done. simpl. rewrite IH.
    apply filter_ext_in. intros r' _.
    destruct (decide (r_geometry r' = r_geometry r)) as [Heq|Hne].
    + rewrite Heq. rewrite (bool_decide_eq_true_2 _ Hin). simpl.
      by rewrite andb_false_r.
    + by rewrite (bool_decide_eq_false_2 _ Hne).
  - rewrite bool_decide_eq_false_2 by done. simpl. f_equal. rewrite IH.
    apply filter_ext. intros r'.
    destruct (decide (r_geometry r' = r_geometry r)) as [Heq|Hne].
    + rewrite (bool_decide_eq_true_2 _ Heq). simpl.
      rewrite bool_decide_eq_true_2; [done|]. rewrite Heq. constructor.
    + rewrite (bool_decide_eq_false_2 _ Hne). simpl. f_equal.
      apply bool_decide_ext. rewrite elem_of_cons.
      split; [by intros [?|?]|by right].
Qed.

Lemma drop_duplicates_rows (df : GeoDataFrame G) :
  rows (drop_duplicates_geometry df) = first_of_each_geometry (rows df).
Proof.
  unfold drop_duplicates_geometry. simpl. rewrite drop_duplicates_go_spec.
  induction (first_of_each_geometry (rows df)) as [|r l IH]; [done|].
  simpl in *. by rewrite IH.
Qed.

Lemma first_of_each_geometry_In (l : list (row G)) (r : row G) :
  In r (first_of_each_geometry l) -> In r l.
Proof.
  induction l as [|x l IH]; simpl; [done|].
  intros [->|Hr]; [by left|]. right. apply IH.
  by apply filter_In in Hr as [Hr _].
Qed.

Lemma first_of_each_geometry_NoDup (l : list (row G)) :
  List.NoDup (map r_geometry (first_of_each_geometry l)).
Proof.
  induction l as [|x l IH]; simpl; [constructor|]. constructor.
  - intros Hin. apply in_map_iff in Hin as (r & Hg & Hr).
    apply filter_In in Hr as [_ Hr]. by rewrite bool_decide_eq_true_2 in Hr.
  - revert IH. generalize (first_of_each_geometry l). intros l' Hl'.
    induction l' as [|y l' IH']; simpl; [constructor|].
    inversion Hl' as [|? ? Hy Hl'']; subst.
    destruct (negb _); simpl; [|by apply IH'].
    constructor; [|by apply IH'].
    intros Hin. apply Hy. apply in_map_iff in Hin as (r & Hg & Hr).
    apply filter_In in Hr as [Hr _]. apply in_map_iff. by exists r.
Qed.

(** The identities found by the second join are those of the rows that are
    within some necrosis polygon. *)
Lemma within_some_true (g : G) (polygons : list (row G)) :
  within_some E g polygons = true <->
  exists t, In t polygons /\ within E g (r_geometry t) = true.
Proof. unfold within_some. by rewrite existsb_exists. Qed.

Lemma necrosis_ids (nwt necrosis : GeoDataFrame G) (i : Z) :
  i ∈ (list_to_set (map r_index (sjoin_rows (within E) nwt necrosis)) : gset Z) <->
  i ∈ map r_index
        (List.filter (fun r => within_some E (r_geometry r) (rows necrosis)) (rows nwt)).
Proof.
  rewrite elem_of_list_to_set, !list_elem_of_In, !in_map_iff. split.
  - intros (r & <- & Hr). apply sjoin_rows_In in Hr as (l & t & Hl & Ht & Hp & ->).
    exists l. split; [done|]. apply filter_In. split; [done|].
    apply within_some_true. by exists t.
  - intros (l & <- & Hl). apply filter_In in Hl as [Hl Hw].
    apply within_some_true in Hw as (t & Ht & Hp).
    exists (sjoin_row nwt necrosis l t). split; [done|].
    apply sjoin_rows_In. by exists l, t.
Qed.

Lemma not_necrosis_rows (nwt necrosis retained : GeoDataFrame G) :
  not_necrosis E nwt necrosis = Ok retained ->
  rows retained = retained_spec E (rows nwt) (rows necrosis).
Proof.
  unfold not_necrosis, sjoin_within.
  destruct (sjoin_fault E nwt necrosis); [done|]. simpl. intros [= <-].
  rewrite drop_duplicates_rows. unfold retained_spec, filter_rows. simpl.
  f_equal. apply filter_ext. intros r. f_equal. apply bool_decide_ext.
  apply necrosis_ids.
Qed.

Lemma retained_spec_In (nwt necrosis : list (row G)) (r : row G) :
  In r (retained_spec E nwt necrosis) ->
  In r nwt /\ within_some E (r_geometry r) necrosis = false.
Proof.
  unfold retained_spec. intros Hr. apply first_of_each_geometry_In in Hr.
  apply filter_In in Hr as [Hr Hid]. split; [done|].
  apply negb_true_iff, bool_decide_eq_false in Hid.
  destruct (within_some E (r_geometry r) necrosis) eqn:Hw; [|done].
  exfalso. apply Hid. apply list_elem_of_In, in_map_iff. exists r.
  split; [done|]. by apply filter_In.
Qed.

(** What the parsing block does to the rows. *)
Lemma mapM_Forall2 {A B} (f : A -> result B) (l : list A) (l' : list B) :
  mapM f l = Ok l' -> Forall2 (fun x y => f x = Ok y) l l'.
Proof.
  revert l'. induction l as [|x l IH]; intros l'; simpl.
  - intros [= <-]. constructor.
  - destruct (f x) as [y|e] eqn:Hx; simpl; [|done].
    destruct (mapM f l) as [ys|e]; simpl; [|done].
    intros [= <-]. constructor; [done|]. by apply IH.
Qed.

Lemma Forall2_In_left {A B} (P : A -> B -> Prop) (l : list A) (l' : list B) (x : A) :
  Forall2 P l l' -> In x l -> exists y, In y l' /\ P x y.
Proof.
  induction 1 as [|a b l l' Hab _ IH]; simpl; [done|].
  intros [->|Hx]; [exists b; by split; [left|]|].
  destruct (IH Hx) as (y & Hy & Hxy). exists y. by split; [right|].
Qed.

Lemma Forall2_In_right {A B} (P : A -> B -> Prop) (l : list A) (l' : list B) (y : B) :
  Forall2 P l l' -> In y l' -> exists x, In x l /\ P x y.
Proof.
  induction 1 as [|a b l l' Hab _ IH]; simpl; [done|].
  intros [->|Hy]; [exists a; by split; [left|]|].
  destruct (IH Hy) as (x & Hx & Hxy). exists x. by split; [right|].
Qed.

Lemma zip_with_set_cell_keys (c : string) (values : list pyval) (rs : list (row G)) :
  length values = length rs ->
  map key (zip_with (set_cell c) values rs) = map key rs.
Proof.
  revert rs. induction values as [|v values IH]; intros [|r rs] Hlen; simpl in *;
    try done.
  f_equal. apply IH. lia.
Qed.

Lemma classified_tissue_rows (kept : list (row G)) (names : list pyval) :
  Forall2 (fun x y => tissue_class_name x = Ok y)
    (map (parse_classification E) (map (fun r => cell r "classification") kept)) names ->
  Forall2 (fun t0 t =>
      key t = key t0 /\
      tissue_class_name (parse_classification E (cell t0 "classification"))
      = Ok (cell t "class_name"))
    kept
    (zip_with (set_cell "class_name") names
       (zip_with (set_cell "classification")
          (map (parse_classification E) (map (fun r => cell r "classification") kept))
          kept)).
Proof.
  revert names. induction kept as [|r kept IH]; intros names Hn; simpl in *.
  - inversion Hn. constructor.
  - inversion Hn as [|? y ? ys Hy Hys]; subst. simpl. constructor.
    + split; [done|]. by rewrite cell_set_cell.
    + by apply IH.
Qed.

Lemma classify_rows (tissue0 nuclei0 tissue nuclei : GeoDataFrame G) :
  classify E tissue0 nuclei0 = Ok (tissue, nuclei) ->
  Forall2 (fun t0 t =>
      key t = key t0 /\
      tissue_class_name (parse_classification E (cell t0 "classification"))
      = Ok (cell t "class_name"))
    (List.filter (fun r => notnull (cell r "classification")) (rows tissue0))
    (rows tissue) /\
  map key (rows nuclei) = map key (rows nuclei0).
Proof.
  unfold classify.
  destruct (get_column tissue0 "classification") as [c0|e] eqn:H0; [|done]. simpl.
  set (kept := filter_rows _ tissue0).
  assert (Hcol : "classification" ∈ columns kept).
  { unfold get_column in H0. by destruct (decide _). }
  rewrite (get_column_ok kept) by done. simpl.
  rewrite get_column_set_column by (by rewrite !length_map). simpl.
  destruct (mapM tissue_class_name _) as [names|e] eqn:Hnames; [|done]. simpl.
  destruct (get_column nuclei0 "classification") as [c1|e] eqn:H1; [|done]. simpl.
  rewrite get_column_set_column
    by (rewrite length_map; by apply get_column_length in H1). simpl.
  destruct (mapM nuclei_class_name _) as [names'|e] eqn:Hnames'; [|done]. simpl.
  intros [= <- <-]. simpl. split.
  - apply classified_tissue_rows. by apply mapM_Forall2.
  - apply mapM_length in Hnames'. rewrite length_map in Hnames'.
    apply get_column_length in H1.
    rewrite !zip_with_set_cell_keys; try done.
    + by rewrite length_map.
    + rewrite length_zip_with, length_map. lia.
Qed.

Lemma pd_eq_str (v : pyval) (name : string) : pd_eq v (VStr name) = true <-> v = VStr name.
Proof.
  unfold pd_eq, pyval_eqb. destruct v as [| | |f|s| |]; simpl; rewrite ?andb_false_r;
    try (split; [done|intros [=]]).
  rewrite String.eqb_eq. split; [by intros ->|by intros [= ->]].
Qed.

Lemma class_filter_In (name : string) (tissue : GeoDataFrame G) (t : row G) :
  In t (rows (class_filter name tissue)) <->
  In t (rows tissue) /\ cell t "class_name" = VStr name.
Proof. unfold class_filter, filter_rows. simpl. by rewrite filter_In, pd_eq_str. Qed.

End JoinFacts.

(** *** Stage 2: counts and percentages *)

Section PercentageFacts.
Import Stage2 Claims2.
Context {G : Type} `{EqDecision G} (E : externals G).

Lemma total_cnt_col_neq_total (c : pyval) : total_cnt_col E c <> "total_cell_cnt".
Proof.
  unfold total_cnt_col. intros Heq.
  apply (f_equal list_ascii_of_string) in Heq.
  rewrite list_ascii_of_string_app in Heq. simpl in Heq. discriminate.
Qed.

Lemma percentage_col_neq_total (c : pyval) : percentage_col E c <> "total_cell_cnt".
Proof.
  eapply last_char_neq; [|reflexivity|].
  - unfold percentage_col. by apply last_char_app.
  - done.
Qed.

Lemma percentage_col_inj (c1 c2 : pyval) :
  percentage_col E c1 = percentage_col E c2 -> total_cnt_col E c1 = total_cnt_col E c2.
Proof.
  unfold percentage_col, total_cnt_col. intros Heq.
  apply string_app_inv_tail in Heq. by rewrite Heq.
Qed.

Lemma Forall2_compose {A B C} (P : A -> B -> Prop) (Q : B -> C -> Prop)
    (R : A -> C -> Prop) (l1 : list A) (l2 : list B) (l3 : list C) :
  (forall x y z, P x y -> Q y z -> R x z) ->
  Forall2 P l1 l2 -> Forall2 Q l2 l3 -> Forall2 R l1 l3.
Proof.
  intros HR H12. revert l3. induction H12 as [|x y l1 l2 Hxy _ IH]; intros l3 H23.
  - inversion H23. constructor.
  - inversion H23 as [|? z ? l3' Hyz H23']; subst. constructor; eauto.
Qed.

Lemma Forall2_diag {A} (P : A -> A -> Prop) (l : list A) :
  (forall x, P x x) -> Forall2 P l l.
Proof. intros HP. induction l; constructor; auto. Qed.

(** Setting a column changes that cell of each row and no other. *)
Lemma set_column_rows (g : GeoDataFrame G) (c : string) (values : list pyval) :
  length values = length (rows g) ->
  Forall2 (fun v r' => cell r' c = v) values (rows (set_column g c values)) /\
  Forall2 (fun r r' => forall k, k <> c -> cell r' k = cell r k)
    (rows g) (rows (set_column g c values)).
Proof.
  unfold set_column. simpl. generalize (rows g). intros rs. revert rs.
  induction values as [|v values IH]; intros [|r rs] Hlen; simpl in *; try done.
  destruct (IH rs) as [IH1 IH2]; [lia|]. split; constructor; try done.
  - apply cell_set_cell.
  - intros k Hk. by apply cell_set_cell_ne.
Qed.

(** The first loop: every column it adds holds counts. *)
Lemma count_is_count (gdf : option (GeoDataFrame G)) (c : pyval) (n : Z) :
  get_total_cell_cnt_per_class gdf c = Ok n -> 0 <= n.
Proof.
  unfold get_total_cell_cnt_per_class. destruct gdf as [gdf|]; [|intros [= <-]; lia].
  destruct (get_column gdf "class_name"); simpl; [|done]. intros [= <-]. lia.
Qed.

Lemma grid_classify_counts (g : GeoDataFrame G) (objs : GeoDataFrame G) (c : pyval)
    (col : string) (classified : option (GeoDataFrame G)) :
  grid_classify E (Some g) objs (fun gdf => get_total_cell_cnt_per_class gdf c) col
  = Ok classified ->
  exists g',
    classified = Some g' /\
    Forall2 (fun r r' => is_count (cell r' col) /\ forall k, k <> col -> cell r' k = cell r k)
      (rows g) (rows g').
Proof.
  unfold grid_classify.
  destruct (mapM _ (rows g)) as [values|e] eqn:Hvalues; simpl; [|done].
  intros [= <-]. eexists. split; [done|].
  pose proof (mapM_length _ _ _ Hvalues) as Hlen.
  apply mapM_Forall2 in Hvalues.
  destruct (set_column_rows g col (map VInt values)) as [H1 H2].
  { by rewrite length_map. }
  revert H1 H2. generalize (rows (set_column g col (map VInt values))).
  intros rs' H1 H2.
  assert (Hcount : Forall2 (fun r r' => is_count (cell r' col)) (rows g) rs').
  { apply Forall2_fmap_l in H1.
    eapply Forall2_compose; [|exact Hvalues|exact H1].
    intros r n r' Hn Hq. exists n. split; [done|].
    exact (count_is_count _ c n Hn). }
  clear H1 Hvalues Hlen.
  revert H2. induction Hcount as [|r r' rs rs' Hc _ IH]; intros H2; [constructor|].
  inversion H2; subst. constructor; [done|]. by apply IH.
Qed.

Lemma classify_loop_counts (nuclei : GeoDataFrame G) (classes : list pyval)
    (g : GeoDataFrame G) (classified : option (GeoDataFrame G)) :
  classify_loop E nuclei classes (Some g) = Ok classified ->
  exists g',
    classified = Some g' /\
    Forall2 (fun r r' =>
        (forall c, In c classes -> is_count (cell r' (total_cnt_col E c))) /\
        (forall k, (forall c, In c classes -> k <> total_cnt_col E c) -> cell r' k = cell r k))
      (rows g) (rows g').
Proof.
  revert g. induction classes as [|c rest IH]; intros g; cbn [classify_loop].
  - intros [= <-]. exists g. split; [done|]. apply Forall2_diag. by split.
  - match goal with
    | |- context [grid_classify ?a ?b ?c ?d ?e] =>
        destruct (grid_classify a b c d e) as [og|e'] eqn:Hg; simpl; [|done]
    end.
    apply grid_classify_counts in Hg as (g1 & -> & H1).
    intros Hrest. apply IH in Hrest as (g' & -> & H2).
    exists g'. split; [done|].
    eapply Forall2_compose; [|exact H1|exact H2].
    intros r r1 r' [Hc1 Hk1] [Hc2 Hk2]. split.
    + intros d [<-|Hd]; [|by apply Hc2].
      destruct (decide (Exists (fun c2 => total_cnt_col E c2 = total_cnt_col E c) rest))
        as [Hex|Hnex].
      * apply Exists_exists in Hex as (c2 & Hc2in & Heq).
        rewrite <- Heq. apply Hc2. by apply list_elem_of_In.
      * rewrite Hk2; [done|]. intros c2 Hc2in Heq. apply Hnex.
        apply Exists_exists. exists c2. split; [by apply list_elem_of_In|done].
    + intros k Hk. rewrite Hk2, Hk1; [done| |].
      * apply Hk. by left.
      * intros c2 Hc2in. apply Hk. by right.
Qed.

Lemma Forall2_and {A B} (P Q : A -> B -> Prop) (l : list A) (l' : list B) :
  Forall2 P l l' -> Forall2 Q l l' -> Forall2 (fun x y => P x y /\ Q x y) l l'.
Proof.
  induction 1 as [|x y l l' Hxy _ IH]; intros HQ; [constructor|].
  inversion HQ; subst. constructor; auto.
Qed.

(** The total of a row is the sum of its counts. *)
Lemma as_int_ok (v : pyval) (n : Z) : as_int v = Ok n -> v = VInt n.
Proof. destruct v; simpl; try done. by intros [= ->]. Qed.

Lemma sum_axis1_rows (g : GeoDataFrame G) (cols : list string) (totals : list pyval) :
  sum_axis1 g cols = Ok totals ->
  Forall2 (fun r v =>
      exists ns, Forall2 (fun c n => cell r c = VInt n) cols ns /\
                 v = VInt (foldr Z.add 0 ns))
    (rows g) totals.
Proof.
  unfold sum_axis1. destruct (mapM (get_column g) cols); simpl; [|done].
  intros Hsum. apply mapM_Forall2 in Hsum.
  eapply Forall2_impl; [exact Hsum|]. intros r v Hv. simpl in Hv.
  destruct (mapM _ cols) as [ns|e] eqn:Hns; simpl in Hv; [|done].
  injection Hv as <-. exists ns. split; [|done].
  apply mapM_Forall2 in Hns. eapply Forall2_impl; [exact Hns|].
  intros c n Hn. by apply as_int_ok.
Qed.

(** One pass of the second loop. *)
Lemma pd_truediv_ok (a b : pyval) (q : float) :
  pd_truediv a b = Ok q ->
  exists x y, as_float a = Ok x /\ as_float b = Ok y /\ q = fdiv x y.
Proof.
  unfold pd_truediv. destruct (as_float a) as [x|]; simpl; [|done].
  destruct (as_float b) as [y|]; simpl; [|done]. intros [= <-]. by exists x, y.
Qed.

Lemma quotients_rows (rs : list (row G)) (c1 c2 : string) (quot : list float) :
  mapM (fun p => pd_truediv (fst p) (snd p))
    (zip (map (fun r => cell r c1) rs) (map (fun r => cell r c2) rs)) = Ok quot ->
  Forall2 (fun r q =>
      exists x y, as_float (cell r c1) = Ok x /\ as_float (cell r c2) = Ok y /\
                  q = fdiv x y)
    rs quot.
Proof.
  revert quot. induction rs as [|r rs IH]; intros quot; simpl.
  - intros [= <-]. constructor.
  - destruct (pd_truediv _ _) as [q|] eqn:Hq; simpl; [|done].
    destruct (mapM _ _) as [qs|] eqn:Hqs; simpl; [|done].
    intros [= <-]. constructor; [by apply pd_truediv_ok|]. by apply IH.
Qed.

Lemma percentage_pass (g : GeoDataFrame G) (class_name : pyval) (quot : list float) :
  let p := percentage_col E class_name in
  let values := map (fun q => fmul q (float_of_Z 100)) quot in
  let g1 := set_column g p (map VFloat values) in
  let g2 := set_column g1 p (map (fun q => VFloat (fillna0 q)) values) in
  mapM (fun p => pd_truediv (fst p) (snd p))
    (zip (map (fun r => cell r (total_cnt_col E class_name)) (rows g))
         (map (fun r => cell r "total_cell_cnt") (rows g))) = Ok quot ->
  Forall2 (fun r r2 =>
      (exists x y,
         as_float (cell r (total_cnt_col E class_name)) = Ok x /\
         as_float (cell r "total_cell_cnt") = Ok y /\
         cell r2 p = VFloat (fillna0 (fmul (fdiv x y) (float_of_Z 100)))) /\
      (forall k, k <> p -> cell r2 k = cell r k))
    (rows g) (rows g2).
Proof.
  intros p values g1 g2 Hquot.
  pose proof (mapM_length _ _ _ Hquot) as Hlen.
  rewrite length_zip, !length_map, Nat.min_id in Hlen.
  apply quotients_rows in Hquot.
  destruct (set_column_rows g p (map VFloat values)) as [_ H1].
  { unfold values. by rewrite !length_map. }
  fold g1 in H1.
  assert (Hlen1 : length (rows g1) = length (rows g)).
  { symmetry. by eapply Forall2_length. }
  destruct (set_column_rows g1 p (map (fun q => VFloat (fillna0 q)) values)) as [H2 H3].
  { unfold values. rewrite !length_map. lia. }
  fold g2 in H2, H3.
  apply Forall2_and.
  - unfold values in H2. rewrite map_map in H2. apply Forall2_fmap_l in H2.
    eapply Forall2_compose; [|exact Hquot|exact H2].
    intros r q r2 (x & y & Hx & Hy & ->) Hr2. by exists x, y.
  - eapply Forall2_compose; [|exact H1|exact H3].
    intros r r1 r2 Hr1 Hr2 k Hk. by rewrite Hr2, Hr1.
Qed.

(** The second loop, row by row: the cells that are not percentage columns
    stay; the percentage of a class is computed from its count and the
    total, provided no percentage column has overwritten the count. *)
Lemma percentage_loop_rows (classes : list pyval) (g g' : GeoDataFrame G) :
  percentage_loop E classes g = Ok g' ->
  Forall2 (fun r r' =>
      (forall k, (forall c, In c classes -> k <> percentage_col E c) ->
         cell r' k = cell r k) /\
      (forall c, In c classes ->
         (forall c2, In c2 classes -> total_cnt_col E c <> percentage_col E c2) ->
         exists x y,
           as_float (cell r (total_cnt_col E c)) = Ok x /\
           as_float (cell r "total_cell_cnt") = Ok y /\
           cell r' (percentage_col E c)
           = VFloat (fillna0 (fmul (fdiv x y) (float_of_Z 100)))))
    (rows g) (rows g').
Proof.
  revert g. induction classes as [|c rest IH]; intros g; cbn [percentage_loop].
  - intros [= <-]. apply Forall2_diag. intros r. by split.
  - unfold get_column at 1.
    destruct (decide (total_cnt_col E c ∈ columns g)); simpl; [|done].
    unfold get_column at 1.
    destruct (decide ("total_cell_cnt" ∈ columns g)); simpl; [|done].
    destruct (mapM _ (zip _ _)) as [quot|] eqn:Hquot; simpl; [|done].
    intros Hrest. apply IH in Hrest.
    apply percentage_pass in Hquot.
    eapply Forall2_compose; [|exact Hquot|exact Hrest].
    intros r r2 r' [(x & y & Hx & Hy & Hp) Hk2] [Hk' Hc']. split.
    + intros k Hk. rewrite Hk', Hk2; [done| |].
      * apply Hk. by left.
      * intros c2 Hc2. apply Hk. by right.
    + intros d Hd Hfree.
      assert (Hcnt : cell r2 (total_cnt_col E d) = cell r (total_cnt_col E d)).
      { apply Hk2, Hfree. by left. }
      assert (Htot : cell r2 "total_cell_cnt" = cell r "total_cell_cnt").
      { apply Hk2. intros Heq. by apply (percentage_col_neq_total c). }
      destruct (decide (Exists (fun c2 => percentage_col E c2 = percentage_col E d) rest))
        as [Hex|Hnex].
      * apply Exists_exists in Hex as (c2 & Hc2 & Heq).
        apply list_elem_of_In in Hc2.
        destruct (Hc' c2 Hc2) as (x' & y' & Hx' & Hy' & Hp').
        { intros c3 Hc3. rewrite (percentage_col_inj _ _ Heq). apply Hfree. by right. }
        rewrite (percentage_col_inj _ _ Heq), Hcnt in Hx'. rewrite Htot in Hy'.
        exists x', y'. by rewrite <- Heq.
      * destruct Hd as [<-|Hd].
        -- exists x, y. repeat split; try done. rewrite Hk'; [done|].
           intros c2 Hc2 Heq. apply Hnex, Exists_exists. exists c2.
           split; [by apply list_elem_of_In|done].
        -- exfalso. apply Hnex, Exists_exists. exists d.
           split; [by apply list_elem_of_In|done].
Qed.

Lemma Forall2_right {A B} (P : A -> B -> Prop) (Q : B -> Prop) (l : list A) (l' : list B) :
  (forall x y, P x y -> Q y) -> Forall2 P l l' -> Forall Q l'.
Proof. intros HPQ. induction 1; constructor; eauto. Qed.

Lemma Forall2_with_In {A B} (P : A -> B -> Prop) (l : list A) (l' : list B) :
  Forall2 P l l' -> Forall2 (fun x y => In x l /\ In y l' /\ P x y) l l'.
Proof.
  induction 1 as [|x y l l' Hxy _ IH]; [constructor|]. constructor.
  - repeat split; [by left|by left|done].
  - eapply Forall2_impl; [exact IH|]. intros a b (Ha & Hb & Hab).
    repeat split; [by right|by right|done].
Qed.

Lemma sum_nonneg_bound (ns : list Z) (n : Z) :
  Forall (fun k => 0 <= k) ns -> In n ns -> 0 <= n <= foldr Z.add 0 ns.
Proof.
  induction 1 as [|k ns Hk Hns IH]; simpl; [done|].
  assert (0 <= foldr Z.add 0 ns).
  { clear IH. induction Hns; simpl; lia. }
  intros [->|Hin]; [lia|]. specialize (IH Hin). lia.
Qed.

(** What [fillna(0)] leaves of a percentage. *)
Lemma percentage_value (n total : Z) :
  0 <= n <= total ->
  is_nan (fillna0 (fmul (fdiv (float_of_Z n) (float_of_Z total)) (float_of_Z 100)))
  = false /\
  (total = 0 ->
   pd_truediv (VInt n) (VInt total) = Ok S754_nan /\
   fillna0 (fmul (fdiv (float_of_Z n) (float_of_Z total)) (float_of_Z 100))
   = S754_zero false) /\
  (0 < total < 2 ^ 53 ->
   fillna0 (fmul (fdiv (float_of_Z n) (float_of_Z total)) (float_of_Z 100))
   = fmul (fdiv (float_of_Z n) (float_of_Z total)) (float_of_Z 100)).
Proof.
  intros Hn. split; [|split].
  - unfold fillna0.
    by destruct (is_nan (fmul (fdiv (float_of_Z n) (float_of_Z total))
                           (float_of_Z 100))) eqn:Hnan.
  - intros ->. assert (n = 0) as -> by lia. by split.
  - intros Ht. unfold fillna0. rewrite percentage_not_nan; [done|lia|done].
Qed.

(** C2: in every row of the grid [add_percentage_columns] returns, the
    columns [total_cnt_<class>] of the class names observed among the
    nuclei hold counts and [total_cell_cnt] holds their sum. Each
    [<class>_percentage] holds a binary64 number that is not NaN: the
    quotient [count / total] is taken first and multiplied by [100], and
    NaN is then replaced by [0]. With a total of zero the division
    [0 / 0] is evaluated, gives NaN, and the cell ends as [0]; with a
    positive total below [2^53] the cell is [(count / total) × 100]
    as computed. The class names are taken not to make a count column
    and a percentage column coincide. *)
Theorem percentages_follow_counts (grid : option (GeoDataFrame G))
    (nuclei g' : GeoDataFrame G) (col classes : list pyval) :
  add_percentage_columns E grid (Some nuclei) = Ok (Some g') ->
  get_column nuclei "class_name" = Ok col ->
  unique col = Ok classes ->
  (forall c1 c2, In c1 classes -> In c2 classes ->
     total_cnt_col E c1 <> percentage_col E c2) ->
  Forall (fun r =>
      exists counts,
        Forall2 (fun c n => cell r (total_cnt_col E c) = VInt n /\ 0 <= n)
          classes counts /\
        cell r "total_cell_cnt" = VInt (foldr Z.add 0 counts) /\
        Forall2 (fun c n =>
            exists p,
              cell r (percentage_col E c) = VFloat p /\
              is_nan p = false /\
              p = fillna0 (fmul (fdiv (float_of_Z n)
                                   (float_of_Z (foldr Z.add 0 counts)))
                             (float_of_Z 100)) /\
              (foldr Z.add 0 counts = 0 ->
               pd_truediv (VInt n) (VInt (foldr Z.add 0 counts)) = Ok S754_nan /\
               p = S754_zero false) /\
              (0 < foldr Z.add 0 counts < 2 ^ 53 ->
               p = fmul (fdiv (float_of_Z n) (float_of_Z (foldr Z.add 0 counts)))
                     (float_of_Z 100)))
          classes counts)
    (rows g').
Proof.
  intros Hadd Hcol Hu Hfree. unfold add_percentage_columns in Hadd.
  destruct (empty nuclei); [done|]. rewrite Hcol in Hadd. simpl in Hadd.
  rewrite Hu in Hadd. simpl in Hadd.
  destruct (classify_loop E nuclei classes grid) as [[g|]|] eqn:Hloop;
    simpl in Hadd; try done.
  destruct (empty g); [done|].
  destruct (percentage_columns E classes g) as [g''|e] eqn:Hpc; simpl in Hadd.
  2:{ by destruct e. }
  injection Hadd as ->.
  assert (Hcounts : Forall (fun r => forall c, In c classes ->
                              is_count (cell r (total_cnt_col E c))) (rows g)).
  { destruct grid as [g0|].
    - apply classify_loop_counts in Hloop as (g1 & [= <-] & HF).
      eapply Forall2_right; [|exact HF]. by intros r r' [Hc _].
    - destruct classes; simpl in Hloop; [by injection Hloop|done]. }
  unfold percentage_columns in Hpc.
  destruct (sum_axis1 g (map (total_cnt_col E) classes)) as [totals|] eqn:Hsum;
    simpl in Hpc; [|done].
  apply sum_axis1_rows in Hsum.
  destruct (set_column_rows g "total_cell_cnt" totals) as [H1 H2].
  { symmetry. by eapply Forall2_length. }
  revert Hpc H1 H2. generalize (set_column g "total_cell_cnt" totals). intros g1 Hpc H1 H2.
  apply percentage_loop_rows in Hpc.
  assert (Hg1 : Forall (fun r1 =>
              exists counts,
                Forall2 (fun c n => cell r1 (total_cnt_col E c) = VInt n /\ 0 <= n)
                  classes counts /\
                cell r1 "total_cell_cnt" = VInt (foldr Z.add 0 counts)) (rows g1)).
  { assert (H3 : Forall2 (fun r r1 =>
                (exists ns, Forall2 (fun c n => cell r c = VInt n)
                              (map (total_cnt_col E) classes) ns /\
                            cell r1 "total_cell_cnt" = VInt (foldr Z.add 0 ns)) /\
                (forall k, k <> "total_cell_cnt" -> cell r1 k = cell r k))
              (rows g) (rows g1)).
    { apply Forall2_and; [|done].
      eapply Forall2_compose; [|exact Hsum|exact H1].
      intros r v r1 (ns & Hns & ->) Hr1. by exists ns. }
    apply Forall2_with_In in H3.
    eapply Forall2_right; [|exact H3].
    intros r r1 (Hr & _ & (ns & Hns & Htot) & Hk). exists ns. split; [|done].
    apply Forall2_fmap_l in Hns. apply Forall2_with_In in Hns.
    eapply Forall2_impl; [exact Hns|]. intros c n (Hc & _ & Hn). simpl in Hn.
    rewrite Hk by apply total_cnt_col_neq_total. split; [done|].
    rewrite List.Forall_forall in Hcounts.
    destruct (Hcounts r Hr c Hc) as (n' & Hn' & Hpos). congruence. }
  apply Forall2_with_In in Hpc.
  eapply Forall2_right; [|exact Hpc].
  intros r1 r' (Hr1 & _ & Hk & Hp).
  rewrite List.Forall_forall in Hg1. destruct (Hg1 r1 Hr1) as (counts & Hc & Htot).
  exists counts.
  assert (Hnonneg : Forall (fun k => 0 <= k) counts).
  { eapply Forall2_right; [|exact Hc]. by intros c n [_ Hn]. }
  split; [|split].
  - apply Forall2_with_In in Hc. eapply Forall2_impl; [exact Hc|].
    intros c n (Hin & _ & Hn & Hpos). split; [|done].
    rewrite Hk; [done|]. intros c2 Hc2. by apply Hfree.
  - rewrite Hk; [done|]. intros c2 _ Heq. by apply (percentage_col_neq_total c2).
  - apply Forall2_with_In in Hc. eapply Forall2_impl; [exact Hc|].
    intros c n (Hin & Hnin & Hn & Hpos).
    destruct (Hp c Hin) as (x & y & Hx & Hy & Hcell).
    { intros c2 Hc2. by apply Hfree. }
    rewrite Hn in Hx. rewrite Htot in Hy. simpl in Hx, Hy.
    injection Hx as <-. injection Hy as <-.
    pose proof (sum_nonneg_bound counts n Hnonneg Hnin) as Hle.
    destruct (percentage_value n (foldr Z.add 0 counts) Hle) as (Hnan & Hzero & Hpos').
    eexists. split; [exact Hcell|]. split; [exact Hnan|]. split; [done|].
    split; [exact Hzero|exact Hpos'].
Qed.

End PercentageFacts.

(** *** Stage 2: the skip conditions *)

Section Stage2Flow.
Import Stage2 Claims2.
Context {G : Type} `{EqDecision G} (E : externals G) (args : arguments).

Lemma first_skip_condition_sound (geojson : string) (st : state G) (c : skip_condition) :
  first_skip_condition E args geojson st = Some c ->
  process_sample E args geojson st =
  (Skipped (reason_of c),
   {| files := files_until args geojson c st;
      trace := trace st ++ calls_until args geojson c |}).
Proof.
  unfold first_skip_condition, process_sample, tissue_path, nuclei_path.
  intros Hc.
  change (path_exists (output_filepath args geojson)
            (emit (EvExists (output_filepath args geojson)) st))
    with (path_exists (output_filepath args geojson) st).
  destruct (path_exists (output_filepath args geojson) st) eqn:Hcsv.
  { by simplify_eq. }
  change (path_exists (lock_file args geojson)
            (emit (EvExists (lock_file args geojson))
               (emit (EvExists (output_filepath args geojson)) st)))
    with (path_exists (lock_file args geojson) st).
  destruct (path_exists (lock_file args geojson) st) eqn:Hlock.
  { simplify_eq. unfold emit; simpl. by rewrite <- app_assoc. }
  destruct (getsize E _ <? 2 * 1024) eqn:Hsize.
  { simplify_eq. unfold emit, write_file; simpl. by rewrite <- !app_assoc. }
  destruct (read_gdf E (path_div (tissue_geojson_folder args) geojson)) as [tissue|e].
  2:{ simplify_eq. unfold emit, write_file; simpl. by rewrite <- !app_assoc. }
  destruct (read_gdf E (path_div (nuclei_geojson_folder args) geojson)) as [nuclei|e].
  2:{ simplify_eq. unfold emit, write_file; simpl. by rewrite <- !app_assoc. }
  discriminate.
Qed.

(** C6: for a name in both listings the loop checks, in this order, that
    the table exists, that the lock exists, that the tissue file is below
    2 KiB, that the tissue file loads and that the nuclei file loads; the
    first condition that holds ends the iteration, after the calls made up
    to it and nothing else, and the loop goes on with the next name. An
    existing table or lock ends the iteration after existence checks only,
    with no file changed. *)
Theorem skip_conditions_in_order (geojson : string) (rest tissue_files : list string)
    (st : state G) (c : skip_condition) :
  geojson ∈ tissue_files ->
  first_skip_condition E args geojson st = Some c ->
  let st' := {| files := files_until args geojson c st;
                trace := trace st ++ calls_until args geojson c |} in
  process_sample E args geojson st = (Skipped (reason_of c), st') /\
  process_geojson_files E args (geojson :: rest) tissue_files st
  = process_geojson_files E args rest tissue_files st' /\
  (path_exists (output_filepath args geojson) st = true \/
   path_exists (lock_file args geojson) st = true ->
   files st' = files st /\
   Forall (fun ev => exists p, ev = EvExists p) (calls_until args geojson c)).
Proof.
  intros Hin Hc st'.
  pose proof (first_skip_condition_sound geojson st c Hc) as Hp.
  split; [exact Hp|]. split.
  - simpl. rewrite decide_True by done. by rewrite Hp.
  - intros Hor. unfold first_skip_condition in Hc.
    destruct (path_exists (output_filepath args geojson) st) eqn:Hcsv.
    { simplify_eq. split; [done|]. repeat constructor; by eexists. }
    destruct Hor as [|Hlock]; [done|]. rewrite Hlock in Hc.
    simplify_eq. split; [done|]. repeat constructor; by eexists.
Qed.

(** *** Stage 2: which files an iteration touches *)

Lemma process_sample_other_files (geojson : string) (st : state G) (p : string) :
  p <> lock_file args geojson ->
  p <> nuclei_within_tissue_output_path args geojson ->
  p <> output_filepath args geojson ->
  files (snd (process_sample E args geojson st)) !! p = files st !! p.
Proof.
  intros H1 H2 H3. unfold process_sample.
  repeat case_match; simpl;
    rewrite ?lookup_delete_ne, ?lookup_insert_ne by done; done.
Qed.

Lemma process_sample_blocked (geojson : string) (st : state G) :
  path_exists (output_filepath args geojson) st = true \/
  path_exists (lock_file args geojson) st = true ->
  files (snd (process_sample E args geojson st)) = files st.
Proof.
  intros Hor.
  destruct (path_exists (output_filepath args geojson) st) eqn:Hcsv.
  - rewrite (first_skip_condition_sound geojson st OutputExists); [done|].
    unfold first_skip_condition. by rewrite Hcsv.
  - destruct Hor as [|Hlock]; [done|].
    rewrite (first_skip_condition_sound geojson st LockExists); [done|].
    unfold first_skip_condition. by rewrite Hcsv, Hlock.
Qed.

(** A lock without table stays as it is, whatever sample is processed. *)
Lemma stale_lock_step (geojson other : string) (st : state G) :
  stale_lock args geojson st -> stale_lock args geojson (snd (process_sample E args other st)).
Proof.
  intros [Hlock Hcsv]. unfold stale_lock.
  destruct (path_exists (output_filepath args other) st) eqn:Ecsv.
  { rewrite process_sample_blocked by auto. by split. }
  destruct (path_exists (lock_file args other) st) eqn:Elock.
  { rewrite process_sample_blocked by auto. by split. }
  assert (Hne : lock_file args geojson <> lock_file args other).
  { intros Heq. unfold path_exists in Elock. apply bool_decide_eq_false in Elock.
    apply Elock. rewrite <- Heq. by eexists. }
  split.
  - rewrite process_sample_other_files; [done|done|apply lock_neq_out|apply lock_neq_csv].
  - rewrite process_sample_other_files; [done| | |].
    + intros Heq. by apply (lock_neq_csv args other geojson).
    + apply csv_neq_out.
    + intros Heq. apply Hne. by apply csv_eq_lock_eq.
Qed.

Lemma stale_lock_run (geojson : string) (nuclei_files tissue_files : list string)
    (st : state G) :
  stale_lock args geojson st ->
  stale_lock args geojson (snd (process_geojson_files E args nuclei_files tissue_files st)).
Proof.
  revert st. induction nuclei_files as [|other rest IH]; intros st Hst; simpl; [done|].
  destruct (decide (other ∈ tissue_files)) as [Hin|Hnin]; [|by apply IH].
  pose proof (stale_lock_step geojson other st Hst) as Hstep.
  destruct (process_sample E args other st) as [[why|b|e] st']; simpl in *;
    [by apply IH|by apply IH|done].
Qed.

(** What an iteration leaves behind, by the way it ended. *)
Lemma process_sample_outcome (geojson : string) (st : state G) :
  let csv := output_filepath args geojson in
  let lock := lock_file args geojson in
  let out := nuclei_within_tissue_output_path args geojson in
  let r := process_sample E args geojson st in
  match fst r with
  | Skipped AlreadyExists | Skipped Locked => files (snd r) = files st
  | Skipped TissueTooSmall | Skipped (LoadError _) | Skipped (MissingKey _)
  | Skipped (JoinError _) | Uncaught _ =>
      path_exists csv st = false /\ path_exists lock st = false /\
      files (snd r) = <[lock := LockFile]> (files st)
  | Skipped (GridError e) =>
      path_exists csv st = false /\ path_exists lock st = false /\
      exists retained,
        reaches_grid_step E args geojson st retained /\
        grid_step E args retained = Raise e /\
        files (snd r) = <[out := GeoJSONFile retained]> (<[lock := LockFile]> (files st))
  | Completed false =>
      path_exists csv st = false /\ path_exists lock st = false /\
      exists retained,
        reaches_grid_step E args geojson st retained /\
        grid_step E args retained = Ok None /\
        files (snd r) =
        delete lock (<[out := GeoJSONFile retained]> (<[lock := LockFile]> (files st)))
  | Completed true =>
      path_exists csv st = false /\ path_exists lock st = false /\
      exists retained grid,
        reaches_grid_step E args geojson st retained /\
        grid_step E args retained = Ok (Some grid) /\
        files (snd r) =
        delete lock (<[csv := CSVFile grid]>
          (<[out := GeoJSONFile retained]> (<[lock := LockFile]> (files st))))
  end.
Proof.
  intros csv lock out r. subst r csv lock out.
  unfold process_sample, reaches_grid_step, tissue_path, nuclei_path.
  change (path_exists (output_filepath args geojson)
            (emit (EvExists (output_filepath args geojson)) st))
    with (path_exists (output_filepath args geojson) st).
  destruct (path_exists (output_filepath args geojson) st) eqn:Hcsv; [done|].
  change (path_exists (lock_file args geojson)
            (emit (EvExists (lock_file args geojson))
               (emit (EvExists (output_filepath args geojson)) st)))
    with (path_exists (lock_file args geojson) st).
  destruct (path_exists (lock_file args geojson) st) eqn:Hlock; [done|].
  destruct (getsize E _ <? 2 * 1024) eqn:Hsize; [done|].
  destruct (read_gdf E (path_div (tissue_geojson_folder args) geojson))
    as [tissue0|e] eqn:Ht; [|done].
  destruct (read_gdf E (path_div (nuclei_geojson_folder args) geojson))
    as [nuclei0|e] eqn:Hn; [|done].
  destruct (classify E tissue0 nuclei0) as [[tissue nuclei]|e] eqn:Hc.
  2:{ by destruct e. }
  destruct (spatial_filter E nuclei _ _) as [retained|e] eqn:Hs; [|done].
  destruct (to_file_fault E retained) as [e|] eqn:Hf; [done|].
  destruct (grid_step E args retained) as [[grid|]|e] eqn:Hg; simpl.
  - repeat split; try done. exists retained, grid. repeat split; try done.
    by exists tissue0, nuclei0, tissue, nuclei.
  - repeat split; try done. exists retained. repeat split; try done.
    by exists tissue0, nuclei0, tissue, nuclei.
  - repeat split; try done. exists retained. repeat split; try done.
    by exists tissue0, nuclei0, tissue, nuclei.
Qed.

Lemma path_exists_false (p : string) (st : state G) :
  path_exists p st = false <-> files st !! p = None.
Proof.
  unfold path_exists. rewrite bool_decide_eq_false, <- eq_None_not_Some. done.
Qed.

Lemma path_exists_true (p : string) (st : state G) (c : content G) :
  files st !! p = Some c -> path_exists p st = true.
Proof. intros H. unfold path_exists. apply bool_decide_eq_true. by eexists. Qed.

(** What an iteration does once it has got to the grid [try] block. *)
Lemma process_sample_at_grid_step (geojson : string) (st : state G)
    (retained : GeoDataFrame G) :
  let csv := output_filepath args geojson in
  let lock := lock_file args geojson in
  let out := nuclei_within_tissue_output_path args geojson in
  let r := process_sample E args geojson st in
  reaches_grid_step E args geojson st retained ->
  match grid_step E args retained with
  | Raise e =>
      fst r = Skipped (GridError e) /\
      files (snd r) = <[out := GeoJSONFile retained]> (<[lock := LockFile]> (files st))
  | Ok None =>
      fst r = Completed false /\
      files (snd r) = <[out := GeoJSONFile retained]> (files st)
  | Ok (Some grid) =>
      fst r = Completed true /\
      files (snd r) =
      <[csv := CSVFile grid]> (<[out := GeoJSONFile retained]> (files st))
  end.
Proof.
  intros csv lock out r (Hcsv & Hlock & Hsize & t0 & n0 & t & n & Ht & Hn & Hc & Hs & Hf).
  subst r. unfold process_sample.
  change (path_exists (output_filepath args geojson)
            (emit (EvExists (output_filepath args geojson)) st))
    with (path_exists (output_filepath args geojson) st).
  rewrite Hcsv.
  change (path_exists (lock_file args geojson)
            (emit (EvExists (lock_file args geojson))
               (emit (EvExists (output_filepath args geojson)) st)))
    with (path_exists (lock_file args geojson) st).
  rewrite Hlock. unfold tissue_path, nuclei_path in *.
  rewrite Hsize, Ht, Hn, Hc, Hs, Hf.
  apply path_exists_false in Hlock.
  assert (Hlo : lock <> out) by apply lock_neq_out.
  assert (Hlc : lock <> csv) by apply lock_neq_csv.
  destruct (grid_step E args retained) as [[grid|]|e]; simpl; (split; [done|]).
  - fold lock out csv. apply map_eq. intros k.
    destruct (decide (k = lock)) as [->|Hk].
    + rewrite lookup_delete_eq. by rewrite !lookup_insert_ne.
    + rewrite lookup_delete_ne by done.
      destruct (decide (k = csv)) as [->|]; [by rewrite !lookup_insert_eq|].
      rewrite !(lookup_insert_ne _ csv) by done.
      destruct (decide (k = out)) as [->|]; [by rewrite !lookup_insert_eq|].
      rewrite !(lookup_insert_ne _ out) by done. by rewrite lookup_insert_ne.
  - fold lock out csv. apply map_eq. intros k.
    destruct (decide (k = lock)) as [->|Hk].
    + rewrite lookup_delete_eq. by rewrite !lookup_insert_ne.
    + rewrite lookup_delete_ne by done.
      destruct (decide (k = out)) as [->|]; [by rewrite !lookup_insert_eq|].
      rewrite !(lookup_insert_ne _ out) by done. by rewrite lookup_insert_ne.
  - done.
Qed.

(** C4, as the script has it: a sample with neither table nor lock whose
    tissue file is below 2 KiB is skipped after the size check, before any
    file is read; no table is written for it, and the lock marker created
    just before the check is still there at the end of the run. *)
Theorem small_tissue_skipped_lock_kept (geojson : string) (rest tissue_files : list string)
    (st : state G) :
  path_exists (output_filepath args geojson) st = false ->
  path_exists (lock_file args geojson) st = false ->
  getsize E (tissue_path args geojson) < 2 * 1024 ->
  let r := process_sample E args geojson st in
  let final := snd (process_geojson_files E args rest tissue_files (snd r)) in
  fst r = Skipped TissueTooSmall /\
  files (snd r) = <[lock_file args geojson := LockFile]> (files st) /\
  trace (snd r) = trace st ++ calls_until args geojson SmallTissue /\
  files final !! output_filepath args geojson = None /\
  files final !! lock_file args geojson = Some LockFile.
Proof.
  intros Hcsv Hlock Hsize r final.
  assert (Hr : r = (Skipped TissueTooSmall,
                    {| files := <[lock_file args geojson := LockFile]> (files st);
                       trace := trace st ++ calls_until args geojson SmallTissue |})).
  { apply (first_skip_condition_sound geojson st SmallTissue).
    unfold first_skip_condition. rewrite Hcsv, Hlock.
    apply Z.ltb_lt in Hsize. by rewrite Hsize. }
  assert (Hstale : stale_lock args geojson (snd r)).
  { rewrite Hr. split; simpl.
    - by rewrite lookup_insert_eq.
    - rewrite lookup_insert_ne by apply lock_neq_csv. by apply path_exists_false. }
  apply (stale_lock_run geojson rest tissue_files) in Hstale as [Hl Hc].
  rewrite Hr. repeat split; simpl; try done. all: by rewrite Hr in *.
Qed.

Lemma caught_failure_retry (geojson : string) (st : state G) :
  stale_lock args geojson st ->
  process_sample E args geojson st =
  (Skipped Locked,
   emit (EvExists (lock_file args geojson))
     (emit (EvExists (output_filepath args geojson)) st)).
Proof.
  intros [Hlock Hcsv].
  rewrite (first_skip_condition_sound geojson st LockExists).
  - unfold emit; simpl. by rewrite <- app_assoc.
  - unfold first_skip_condition.
    rewrite (proj2 (path_exists_false _ _) Hcsv).
    by rewrite (path_exists_true _ _ _ Hlock).
Qed.

(** C5, as the script has it: when the exception is caught in the
    spatial-join block, nothing has been written but the lock; when it is
    caught in the grid block, the retained nuclei have already been written
    to the output folder. Either way there is no statistics table, the lock
    marker is still there, and a retry skips the sample as locked without
    changing a file. *)
Theorem caught_failure_keeps_lock (geojson : string) (st : state G) (e : exn) :
  let csv := output_filepath args geojson in
  let lock := lock_file args geojson in
  let out := nuclei_within_tissue_output_path args geojson in
  let r := process_sample E args geojson st in
  fst r = Skipped (JoinError e) \/ fst r = Skipped (GridError e) ->
  files (snd r) !! csv = None /\
  files (snd r) !! lock = Some LockFile /\
  (fst r = Skipped (JoinError e) -> files (snd r) = <[lock := LockFile]> (files st)) /\
  (fst r = Skipped (GridError e) ->
   exists retained,
     files (snd r) = <[out := GeoJSONFile retained]> (<[lock := LockFile]> (files st))) /\
  fst (process_sample E args geojson (snd r)) = Skipped Locked /\
  files (snd (process_sample E args geojson (snd r))) = files (snd r).
Proof.
  intros csv lock out r Hor.
  pose proof (process_sample_outcome geojson st) as Ho. simpl in Ho. fold r in Ho.
  assert (Hlo : lock <> out) by apply lock_neq_out.
  assert (Hlc : lock <> csv) by apply lock_neq_csv.
  assert (Hco : csv <> out) by apply csv_neq_out.
  assert (Hstale : stale_lock args geojson (snd r)).
  { unfold stale_lock. fold csv lock. destruct Hor as [Hr|Hr]; rewrite Hr in Ho.
    - destruct Ho as (Hcsv & _ & ->). apply path_exists_false in Hcsv.
      split; by simplify_map_eq.
    - destruct Ho as (Hcsv & _ & retained & _ & _ & ->).
      apply path_exists_false in Hcsv. split; by simplify_map_eq. }
  destruct Hstale as [Hl Hc].
  split; [exact Hc|]. split; [exact Hl|]. split; [|split].
  - intros Hr. rewrite Hr in Ho. by destruct Ho as (_ & _ & ->).
  - intros Hr. rewrite Hr in Ho. destruct Ho as (_ & _ & retained & _ & _ & ->).
    by exists retained.
  - by rewrite (caught_failure_retry geojson (snd r)).
Qed.

(** *** Stage 2: the retained nuclei *)

Lemma retained_feature (tissue0 nuclei0 tissue nuclei nwt retained : GeoDataFrame G)
    (f : row G) :
  classify E tissue0 nuclei0 = Ok (tissue, nuclei) ->
  nuclei_within_tumor E nuclei (class_filter "tumor" tissue) = Ok nwt ->
  not_necrosis E nwt (class_filter "necrosis" tissue) = Ok retained ->
  In f (rows retained) ->
  (exists n, In n (rows nuclei0) /\ key n = key f) /\
  (exists t, In t (rows tissue0) /\ tissue_classified_as E "tumor" t /\
     within E (r_geometry f) (r_geometry t) = true) /\
  (forall t, In t (rows tissue0) -> tissue_classified_as E "necrosis" t ->
     within E (r_geometry f) (r_geometry t) = false).
Proof.
  intros Hc Hnwt Hnn Hf.
  apply classify_rows in Hc as [Htissue Hnuclei].
  apply nuclei_within_tumor_keys in Hnwt.
  apply not_necrosis_rows in Hnn. rewrite Hnn in Hf.
  apply retained_spec_In in Hf as [Hf Hout].
  assert (Hkey : In (key f) (map key (rows nwt))) by (apply in_map_iff; by exists f).
  rewrite Hnwt in Hkey. unfold within_tumor_pairs in Hkey.
  apply in_flat_map in Hkey as (n & Hn & Hkey).
  apply in_map_iff in Hkey as (t & Hkey & Ht).
  apply filter_In in Ht as [Ht Hw].
  assert (Hg : r_geometry f = r_geometry n) by (by inversion Hkey).
  split; [|split].
  - assert (Hn0 : In (key n) (map key (rows nuclei0))).
    { rewrite <- Hnuclei. apply in_map_iff. by exists n. }
    apply in_map_iff in Hn0 as (n0 & Hk & Hn0). exists n0. split; [done|].
    by rewrite Hk.
  - apply class_filter_In in Ht as [Ht Hname].
    destruct (Forall2_In_right _ _ _ t Htissue Ht) as (t0 & Ht0 & Hk & Hcls).
    apply filter_In in Ht0 as [Ht0 Hnotnull].
    exists t0. split; [done|]. split.
    + split; [done|]. by rewrite Hcls, Hname.
    + rewrite Hg. replace (r_geometry t0) with (r_geometry t); [done|].
      by inversion Hk.
  - intros t0 Ht0 [Hnotnull Hcls].
    assert (Hkept : In t0 (List.filter (fun r => notnull (cell r "classification"))
                             (rows tissue0))) by (by apply filter_In).
    destruct (Forall2_In_left _ _ _ t0 Htissue Hkept) as (t' & Ht' & Hk & Hcls').
    rewrite Hcls in Hcls'. injection Hcls' as Hname.
    assert (Hnec : In t' (rows (class_filter "necrosis" tissue))).
    { apply class_filter_In. by split. }
    destruct (within E (r_geometry f) (r_geometry t0)) eqn:Hw0; [|done].
    assert (Hsome : within_some E (r_geometry f) (rows (class_filter "necrosis" tissue))
                    = true).
    { apply within_some_true. exists t'. split; [done|].
      replace (r_geometry t') with (r_geometry t0); [done|]. by inversion Hk. }
    congruence.
Qed.

(** C1: when an iteration runs to its end, the feature collection it has
    written holds rows of the nuclei file, each within a tissue polygon
    classified as tumor and within no tissue polygon classified as
    necrosis, no two of them with the same geometry; its rows are those of
    "nuclei within tumor" minus those whose index is the index of a row
    that is also within necrosis, the first of each geometry being
    kept. *)
Theorem retained_within_tumor_not_necrosis (geojson : string) (st : state G)
    (table_written : bool) :
  let r := process_sample E args geojson st in
  fst r = Completed table_written ->
  exists tissue0 nuclei0 tissue nuclei nwt retained,
    read_gdf E (tissue_path args geojson) = Ok tissue0 /\
    read_gdf E (nuclei_path args geojson) = Ok nuclei0 /\
    classify E tissue0 nuclei0 = Ok (tissue, nuclei) /\
    nuclei_within_tumor E nuclei (class_filter "tumor" tissue) = Ok nwt /\
    files (snd r) !! nuclei_within_tissue_output_path args geojson
    = Some (GeoJSONFile retained) /\
    Forall (fun f =>
        (exists n, In n (rows nuclei0) /\ key n = key f) /\
        (exists t, In t (rows tissue0) /\ tissue_classified_as E "tumor" t /\
           within E (r_geometry f) (r_geometry t) = true) /\
        (forall t, In t (rows tissue0) -> tissue_classified_as E "necrosis" t ->
           within E (r_geometry f) (r_geometry t) = false))
      (rows retained) /\
    List.NoDup (map r_geometry (rows retained)) /\
    map key (rows nwt)
    = within_tumor_pairs E (rows nuclei) (rows (class_filter "tumor" tissue)) /\
    rows retained
    = retained_spec E (rows nwt) (rows (class_filter "necrosis" tissue)).
Proof.
  intros r Hdone.
  pose proof (process_sample_outcome geojson st) as Ho. simpl in Ho. fold r in Ho.
  rewrite Hdone in Ho.
  assert (Hret : exists retained,
             reaches_grid_step E args geojson st retained /\
             files (snd r) !! nuclei_within_tissue_output_path args geojson
             = Some (GeoJSONFile retained)).
  { destruct table_written.
    - destruct Ho as (_ & _ & retained & grid & Hreach & _ & ->).
      exists retained. split; [done|].
      rewrite lookup_delete_ne by apply lock_neq_out.
      rewrite lookup_insert_ne by apply csv_neq_out.
      by rewrite lookup_insert_eq.
    - destruct Ho as (_ & _ & retained & Hreach & _ & ->).
      exists retained. split; [done|].
      rewrite lookup_delete_ne by apply lock_neq_out.
      by rewrite lookup_insert_eq. }
  destruct Hret as (retained & Hreach & Hfile).
  destruct Hreach as (_ & _ & _ & tissue0 & nuclei0 & tissue & nuclei
                      & Ht & Hn & Hc & Hs & _).
  unfold spatial_filter in Hs.
  destruct (nuclei_within_tumor E nuclei (class_filter "tumor" tissue))
    as [nwt|e] eqn:Hnwt; [|done].
  simpl in Hs.
  exists tissue0, nuclei0, tissue, nuclei, nwt, retained.
  repeat (split; [done|]).
  pose proof (not_necrosis_rows E _ _ _ Hs) as Hrows.
  split; [|split; [|split]].
  - apply Forall_forall. intros f Hf. apply list_elem_of_In in Hf.
    by apply (retained_feature tissue0 nuclei0 tissue nuclei nwt retained).
  - rewrite Hrows. apply first_of_each_geometry_NoDup.
  - by apply nuclei_within_tumor_keys.
  - exact Hrows.
Qed.

(** The table an iteration writes is what [add_percentage_columns] returns
    for the grid laid over the retained nuclei. *)
Lemma written_table_is_aggregation (geojson : string) (st : state G) :
  let r := process_sample E args geojson st in
  fst r = Completed true ->
  exists retained grid table,
    reaches_grid_step E args geojson st retained /\
    grid_overlay E retained (pixel_grid_size args) = Ok grid /\
    add_percentage_columns E grid (Some retained) = Ok (Some table) /\
    files (snd r) !! output_filepath args geojson = Some (CSVFile table).
Proof.
  intros r Hdone.
  pose proof (process_sample_outcome geojson st) as Ho. simpl in Ho. fold r in Ho.
  rewrite Hdone in Ho. destruct Ho as (_ & _ & retained & table & Hreach & Hstep & ->).
  unfold grid_step in Hstep.
  destruct (grid_overlay E retained (pixel_grid_size args)) as [grid|] eqn:Hgrid;
    simpl in Hstep; [|done].
  exists retained, grid, table. repeat (split; [done|]).
  rewrite lookup_delete_ne.
  - by rewrite lookup_insert_eq.
  - apply lock_neq_csv.
Qed.

(** *** Stage 2: no table, no lock *)

Lemma add_percentage_columns_none (grid : option (GeoDataFrame G))
    (nuclei : GeoDataFrame G) :
  empty nuclei = true \/ "class_name" ∉ columns nuclei \/
  classified_grid_empty E nuclei grid ->
  add_percentage_columns E grid (Some nuclei) = Ok None.
Proof.
  intros Hor. unfold add_percentage_columns.
  destruct (empty nuclei) eqn:Hempty; [done|].
  destruct Hor as [|[Hcol|(col & classes & og & Hcol & Hu & Hloop & Hog)]]; [done| |].
  - unfold get_column. by rewrite decide_False.
  - rewrite Hcol. simpl. rewrite Hu. simpl. rewrite Hloop. simpl.
    destruct og as [g|]; [|done]. by rewrite Hog.
Qed.

(** C10: when the retained nuclei are empty, have no [class_name] column
    or give a grid without row, [add_percentage_columns] returns [None];
    the iteration then ends normally: the retained nuclei are in the output
    folder, there is no statistics table and the lock marker has been
    removed, so that a second visit takes the sample up again and ends the
    same way. *)
Theorem no_table_and_lock_removed (geojson : string) (st : state G)
    (retained : GeoDataFrame G) (grid : option (GeoDataFrame G)) :
  let csv := output_filepath args geojson in
  let lock := lock_file args geojson in
  let out := nuclei_within_tissue_output_path args geojson in
  let r := process_sample E args geojson st in
  reaches_grid_step E args geojson st retained ->
  grid_overlay E retained (pixel_grid_size args) = Ok grid ->
  empty retained = true \/ "class_name" ∉ columns retained \/
  classified_grid_empty E retained grid ->
  add_percentage_columns E grid (Some retained) = Ok None /\
  fst r = Completed false /\
  files (snd r) !! out = Some (GeoJSONFile retained) /\
  files (snd r) !! csv = None /\
  files (snd r) !! lock = None /\
  first_skip_condition E args geojson (snd r) = None /\
  fst (process_sample E args geojson (snd r)) = Completed false /\
  files (snd (process_sample E args geojson (snd r))) = files (snd r).
Proof.
  intros csv lock out r Hreach Hgrid Hor.
  pose proof (add_percentage_columns_none grid retained Hor) as Hadd.
  assert (Hstep : grid_step E args retained = Ok None).
  { unfold grid_step. rewrite Hgrid. simpl. exact Hadd. }
  pose proof (process_sample_at_grid_step geojson st retained Hreach) as Hr.
  simpl in Hr. rewrite Hstep in Hr. fold r out in Hr. destruct Hr as [Hfst Hfiles].
  assert (Hlo : lock <> out) by apply lock_neq_out.
  assert (Hco : csv <> out) by apply csv_neq_out.
  destruct Hreach as (Hcsv & Hlock & Hsize & Hrest).
  assert (Hcsv' : files (snd r) !! csv = None).
  { rewrite Hfiles, lookup_insert_ne by done. by apply path_exists_false. }
  assert (Hlock' : files (snd r) !! lock = None).
  { rewrite Hfiles, lookup_insert_ne by done. by apply path_exists_false. }
  assert (Hreach' : reaches_grid_step E args geojson (snd r) retained).
  { split; [by apply path_exists_false|]. split; [by apply path_exists_false|].
    by split. }
  pose proof (process_sample_at_grid_step geojson (snd r) retained Hreach') as Hr'.
  simpl in Hr'. rewrite Hstep in Hr'. fold out in Hr'. destruct Hr' as [Hfst' Hfiles'].
  split; [exact Hadd|]. split; [exact Hfst|].
  split; [by rewrite Hfiles, lookup_insert_eq|].
  split; [exact Hcsv'|]. split; [exact Hlock'|]. split; [|split].
  - destruct Hrest as (t0 & n0 & t & n & Ht & Hn & _).
    unfold first_skip_condition. fold csv lock.
    rewrite (proj2 (path_exists_false _ _) Hcsv').
    rewrite (proj2 (path_exists_false _ _) Hlock').
    by rewrite Hsize, Ht, Hn.
  - exact Hfst'.
  - rewrite Hfiles'. rewrite Hfiles. by rewrite insert_insert_eq.
Qed.

(** *** Stage 2: a label that does not parse *)

Lemma parse_classification_malformed (x : pyval) :
  malformed E x -> parse_classification E x = placeholder.
Proof. destruct x; simpl; try done. by intros ->. Qed.

Lemma tissue_class_name_placeholder :
  tissue_class_name placeholder = Raise AttributeError.
Proof. reflexivity. Qed.

Lemma tissue_class_name_raises (x : pyval) (e : exn) :
  tissue_class_name x = Raise e -> e = AttributeError.
Proof.
  unfold tissue_class_name. destruct (truthy x); [|done].
  destruct x; simpl; try (by intros [= <-]).
  destruct (dict_get d "name" (VStr "")); simpl; try done; by intros [= <-].
Qed.

(** The placeholder does not stop the nuclei: it gives them the class name
    [None]. *)
Lemma nuclei_class_name_placeholder : nuclei_class_name placeholder = Ok VNone.
Proof. reflexivity. Qed.

Lemma classify_malformed_tissue (tissue nuclei : GeoDataFrame G) (r : row G) :
  "classification" ∈ columns tissue ->
  r ∈ rows tissue ->
  notnull (cell r "classification") = true ->
  malformed E (cell r "classification") ->
  classify E tissue nuclei = Raise AttributeError.
Proof.
  intros Hcol Hin Hnotnull Hbad. unfold classify.
  rewrite (get_column_ok tissue) by done. simpl.
  set (kept := filter_rows _ tissue).
  rewrite (get_column_ok kept) by done. simpl.
  rewrite get_column_set_column by (by rewrite !length_map). simpl.
  rewrite (mapM_raises tissue_class_name _ AttributeError); [done| |].
  - apply tissue_class_name_raises.
  - exists placeholder. split; [|reflexivity].
    apply list_elem_of_fmap. exists (cell r "classification").
    split; [by rewrite parse_classification_malformed|].
    apply list_elem_of_fmap. exists r. split; [done|].
    unfold kept, filter_rows; simpl. apply list_elem_of_In, filter_In.
    split; [by apply list_elem_of_In|done].
Qed.

(** C3 does not hold for tissue labels: the placeholder is substituted,
    but the next statement calls [lower] on its null name; the
    [AttributeError] is not a [KeyError], nothing catches it, and it ends
    the iteration and the whole loop. *)
Theorem malformed_tissue_label_aborts_run (geojson : string)
    (rest tissue_files : list string) (st : state G)
    (tissue nuclei : GeoDataFrame G) (r : row G) :
  geojson ∈ tissue_files ->
  first_skip_condition E args geojson st = None ->
  read_gdf E (tissue_path args geojson) = Ok tissue ->
  read_gdf E (nuclei_path args geojson) = Ok nuclei ->
  "classification" ∈ columns tissue ->
  r ∈ rows tissue ->
  notnull (cell r "classification") = true ->
  malformed E (cell r "classification") ->
  parse_classification E (cell r "classification") = placeholder /\
  fst (process_sample E args geojson st) = Uncaught AttributeError /\
  fst (process_geojson_files E args (geojson :: rest) tissue_files st)
  = Raise AttributeError.
Proof.
  intros Hin Hskip Ht Hn Hcol Hr Hnotnull Hbad.
  split; [by apply parse_classification_malformed|].
  assert (Hp : fst (process_sample E args geojson st) = Uncaught AttributeError).
  { unfold first_skip_condition in Hskip. unfold process_sample.
    change (path_exists (output_filepath args geojson)
              (emit (EvExists (output_filepath args geojson)) st))
      with (path_exists (output_filepath args geojson) st).
    destruct (path_exists (output_filepath args geojson) st); [done|].
    change (path_exists (lock_file args geojson)
              (emit (EvExists (lock_file args geojson))
                 (emit (EvExists (output_filepath args geojson)) st)))
      with (path_exists (lock_file args geojson) st).
    destruct (path_exists (lock_file args geojson) st); [done|].
    unfold tissue_path, nuclei_path in *.
    destruct (getsize E _ <? 2 * 1024); [done|].
    rewrite Ht, Hn.
    by rewrite (classify_malformed_tissue tissue nuclei r). }
  split; [exact Hp|].
  simpl. rewrite decide_True by done.
  destruct (process_sample E args geojson st) as [o st']. simpl in Hp. by subst o.
Qed.

End Stage2Flow.

(** *** Stage 2 on the sample world *)

Section Stage2Samples.
Import Stage2 Claims2.

(** On the sample world: the second visit of a sample that failed in the
    grid block stops at the lock. *)
Lemma skip_conditions_in_order_witness :
  process_sample sample_externals sample_args "gridfail.geojson"
    (snd (process_sample sample_externals sample_args "gridfail.geojson" no_files))
  = (Skipped Locked,
     {| files := files (snd (process_sample sample_externals sample_args
                               "gridfail.geojson" no_files));
        trace := trace (snd (process_sample sample_externals sample_args
                               "gridfail.geojson" no_files))
                 ++ [EvExists "results/gridfail.csv"; EvExists "results/gridfail.lock"] |}).
Proof.
  refine (proj1 (skip_conditions_in_order sample_externals sample_args
                   "gridfail.geojson" [] ["gridfail.geojson"] _ LockExists _ _)).
  - constructor.
  - vm_compute. reflexivity.
Defined.

(** C4 as worded fails: after a run over a sample whose tissue file has
    1500 bytes, the lock marker of the sample is there. *)
Lemma small_tissue_lock_remains :
  let run := process_geojson_files sample_externals sample_args
               ["small.geojson"] ["small.geojson"] no_files in
  getsize sample_externals (tissue_path sample_args "small.geojson") < 2 * 1024 /\
  fst run = Ok tt /\
  files (snd run) !! lock_file sample_args "small.geojson" = Some LockFile.
Proof. vm_compute. repeat split. Qed.

(** On the sample world: the tissue file of 1500 bytes. *)
Lemma small_tissue_skipped_lock_kept_witness :
  let r := process_sample sample_externals sample_args "small.geojson" no_files in
  let final := snd (process_geojson_files sample_externals sample_args
                      ["a.geojson"; "small.geojson"] ["a.geojson"; "small.geojson"]
                      (snd r)) in
  fst r = Skipped TissueTooSmall /\
  files final !! lock_file sample_args "small.geojson" = Some LockFile.
Proof.
  intros r final.
  destruct (small_tissue_skipped_lock_kept sample_externals sample_args
              "small.geojson" ["a.geojson"; "small.geojson"]
              ["a.geojson"; "small.geojson"] no_files)
    as (H1 & _ & _ & _ & H5).
  - vm_compute. reflexivity.
  - vm_compute. reflexivity.
  - vm_compute. reflexivity.
  - split; [exact H1|exact H5].
Defined.

(** C5 as worded fails: the exception of the grid block is caught after the
    retained nuclei have been written to the output folder. *)
Lemma grid_failure_leaves_feature_collection :
  let r := process_sample sample_externals sample_args "gridfail.geojson" no_files in
  fst r = Skipped (GridError (OtherError "ValueError")) /\
  files (snd r) !! nuclei_within_tissue_output_path sample_args "gridfail.geojson"
  <> None.
Proof. vm_compute. split; [reflexivity|discriminate]. Qed.

(** On the sample world: a failure of the grid block, and a failure of the
    join block. *)
Lemma caught_failure_keeps_lock_witness :
  let r := process_sample sample_externals sample_args "gridfail.geojson" no_files in
  let r' := process_sample sample_externals sample_args "noid.geojson" no_files in
  (files (snd r) !! output_filepath sample_args "gridfail.geojson" = None /\
   files (snd r) !! lock_file sample_args "gridfail.geojson" = Some LockFile) /\
  (files (snd r') !! output_filepath sample_args "noid.geojson" = None /\
   files (snd r') !! lock_file sample_args "noid.geojson" = Some LockFile /\
   files (snd r') = <[lock_file sample_args "noid.geojson" := LockFile]> (files no_files)).
Proof.
  intros r r'. split.
  - destruct (caught_failure_keeps_lock sample_externals sample_args
                "gridfail.geojson" no_files (OtherError "ValueError"))
      as (H1 & H2 & _).
    + right. vm_compute. reflexivity.
    + split; [exact H1|exact H2].
  - destruct (caught_failure_keeps_lock sample_externals sample_args
                "noid.geojson" no_files (KeyError "id_right"))
      as (H1 & H2 & H3 & _).
    + left. vm_compute. reflexivity.
    + split; [exact H1|]. split; [exact H2|]. apply H3. vm_compute. reflexivity.
Defined.

(** On the sample world: the sample whose nuclei are all outside the
    tumor. *)
Lemma no_table_and_lock_removed_witness :
  let r := process_sample sample_externals sample_args "outside.geojson" no_files in
  fst r = Completed false /\
  files (snd r) !! lock_file sample_args "outside.geojson" = None /\
  fst (process_sample sample_externals sample_args "outside.geojson" (snd r))
  = Completed false.
Proof.
  intros r.
  destruct (no_table_and_lock_removed sample_externals sample_args
              "outside.geojson" no_files outside_retained None)
    as (_ & H2 & _ & _ & H5 & _ & H7 & _).
  - split; [vm_compute; reflexivity|]. split; [vm_compute; reflexivity|].
    split; [vm_compute; reflexivity|].
    exists sample_tissue, outside_nuclei, outside_tissue, outside_classified.
    repeat split; vm_compute; reflexivity.
  - vm_compute. reflexivity.
  - left. vm_compute. reflexivity.
  - split; [exact H2|]. split; [exact H5|exact H7].
Defined.

(** On the sample world: the sample that runs to its end. *)
Lemma retained_within_tumor_not_necrosis_witness :
  let r := process_sample sample_externals sample_args "a.geojson" no_files in
  exists retained,
    files (snd r) !! nuclei_within_tissue_output_path sample_args "a.geojson"
    = Some (GeoJSONFile retained) /\
    List.NoDup (map r_geometry (rows retained)).
Proof.
  intros r.
  destruct (retained_within_tumor_not_necrosis sample_externals sample_args
              "a.geojson" no_files true)
    as (_ & _ & _ & _ & _ & retained & _ & _ & _ & _ & Hfile & _ & Hnodup & _).
  - vm_compute. reflexivity.
  - exists retained. split; [exact Hfile|exact Hnodup].
Defined.

(** On the sample world: the table of the sample that runs to its end; its
    third cell meets no nucleus. *)
Lemma percentages_follow_counts_witness :
  Forall (fun r =>
      exists counts,
        cell r "total_cell_cnt" = VInt (foldr Z.add 0 counts) /\
        Forall2 (fun c n =>
            exists p,
              cell r (percentage_col sample_externals c) = VFloat p /\
              is_nan p = false /\
              (foldr Z.add 0 counts = 0 -> p = S754_zero false))
          [VStr "nuclei_lymphocyte"; VStr "nuclei_tumor"] counts)
    (rows a_table).
Proof.
  assert (Hall := percentages_follow_counts sample_externals (Some sample_grid)
                    a_retained a_table
                    [VStr "nuclei_lymphocyte"; VStr "nuclei_tumor"]
                    [VStr "nuclei_lymphocyte"; VStr "nuclei_tumor"]).
  refine (Forall_impl _ _ _ (Hall _ _ _ _) _).
  - vm_compute. reflexivity.
  - vm_compute. reflexivity.
  - vm_compute. reflexivity.
  - intros c1 c2 [<-|[<-|[]]] [<-|[<-|[]]] Heq; vm_compute in Heq; discriminate.
  - intros r (counts & _ & Htotal & Hpct). exists counts. split; [exact Htotal|].
    eapply Forall2_impl; [exact Hpct|].
    intros c n (p & Hcell & Hnan & _ & Hzero & _). exists p.
    split; [exact Hcell|]. split; [exact Hnan|]. intros H0. exact (proj2 (Hzero H0)).
Defined.

(** The percentage is not [100 × count / total] as written. Of 25 nuclei
    in one grid cell, 7 are lymphocytes: the cell holds
    [28.000000000000004], the quotient [7 / 25] rounded and then
    multiplied, where [100 × 7 / 25] is [28] exactly. With class names
    [_percentage] and [total_cnt_], the count column of the first is
    overwritten by the percentage of the second, so that the total [2] is
    no longer the sum of the count columns. And a grid cell without
    nuclei has its [0 / 0] evaluated, which gives NaN before [fillna]. *)
Lemma percentage_not_as_documented :
  (exists g r,
     add_percentage_columns sample_externals (Some one_cell_grid) (Some dense_nuclei)
     = Ok (Some g) /\
     rows g = [r] /\
     cell r "total_cnt_nuclei_lymphocyte" = VInt 7 /\
     cell r "total_cell_cnt" = VInt 25 /\
     cell r "nuclei_lymphocyte_percentage"
     = VFloat (S754_finite false 7881299347898369 (-48)) /\
     documented_percentage 7 25 = float_of_Z 28 /\
     (exists q, float_to_Q (S754_finite false 7881299347898369 (-48)) = Some q /\
                (28 < q)%Q) /\
     cell r "nuclei_lymphocyte_percentage" <> VFloat (documented_percentage 7 25)) /\
  (exists g r,
     add_percentage_columns sample_externals (Some one_cell_grid) (Some colliding_nuclei)
     = Ok (Some g) /\
     rows g = [r] /\
     total_cnt_col sample_externals (VStr "_percentage")
     = percentage_col sample_externals (VStr "total_cnt_") /\
     cell r (total_cnt_col sample_externals (VStr "_percentage"))
     = VFloat (float_of_Z 50) /\
     cell r (total_cnt_col sample_externals (VStr "total_cnt_")) = VInt 1 /\
     cell r "total_cell_cnt" = VInt 2) /\
  (exists r,
     In r (rows a_table) /\
     cell r "total_cnt_nuclei_lymphocyte" = VInt 0 /\
     cell r "total_cell_cnt" = VInt 0 /\
     pd_truediv (cell r "total_cnt_nuclei_lymphocyte") (cell r "total_cell_cnt")
     = Ok S754_nan /\
     cell r "nuclei_lymphocyte_percentage" = VFloat (S754_zero false)).
Proof.
  split; [|split].
  - eexists _, _. split; [vm_compute; reflexivity|].
    split; [reflexivity|]. repeat split; try (vm_compute; reflexivity).
    + eexists. split; [vm_compute; reflexivity|]. vm_compute. reflexivity.
    + vm_compute. discriminate.
  - eexists _, _. split; [vm_compute; reflexivity|].
    split; [reflexivity|]. repeat split; vm_compute; reflexivity.
  - eexists. split; [right; right; left; reflexivity|].
    repeat split; vm_compute; reflexivity.
Qed.

(** On the sample world: the tissue file whose label is [not json]. *)
Lemma malformed_tissue_label_aborts_run_witness :
  fst (process_geojson_files sample_externals sample_args
         ["badlabel.geojson"; "outside.geojson"] ["badlabel.geojson"; "outside.geojson"]
         no_files)
  = Raise AttributeError.
Proof.
  refine (proj2 (proj2 (malformed_tissue_label_aborts_run sample_externals sample_args
            "badlabel.geojson" ["outside.geojson"]
            ["badlabel.geojson"; "outside.geojson"] no_files
            badlabel_tissue sample_nuclei
            (feature_row 0 (0, 0, 100, 100) "t0" (VStr "not json"))
            _ _ _ _ _ _ _ _))).
  - constructor.
  - vm_compute. reflexivity.
  - vm_compute. reflexivity.
  - vm_compute. reflexivity.
  - apply list_elem_of_In. simpl. auto.
  - constructor.
  - vm_compute. reflexivity.
  - vm_compute. reflexivity.
Defined.

End Stage2Samples.
